(** * Technical-indicator enrichment: a shallow embedding

    Embedding of [DataEnricher/enrich_with_technical_indicators.py]:
    the result normaliser [safe_ta_function], the snapshot builder
    [get_indicators_for_date], the table writer
    [save_indicators_incrementally] and the batch driver
    [enrich_dataset_with_indicators].

    Conventions.
    - Python exceptions are values of [pyexc]; a call either [Returns] a value
      or [Raises] an exception.  [except Exception] catches the exceptions
      derived from [Exception] and lets [KeyboardInterrupt], [SystemExit] and
      [GeneratorExit] through, as in Python's class hierarchy.
    - Cell values (floats, ints held in a column) are an abstract type [V]
      with the float [np.nan] and the missing-value test [isna].
    - pandas, pandas_ta, numpy and yfinance are collaborators: their
      operations are fields of [Collaborators]; only the parts of pandas the
      program's control flow depends on ([.empty], [len], [.iloc[-1]],
      [.iloc[:, 0]], [.dropna()], [.loc[:date]], [df[col]], the frame built
      from a list of dicts and [to_csv]) are defined here.
    - [print], [time.sleep] and the elapsed-time report have no effect on the
      data and are left out. *)

From Stdlib Require Import String Ascii List ZArith Lia Bool Arith.
Import ListNotations.
Local Open Scope string_scope.
Local Open Scope list_scope.
Local Open Scope Z_scope.

(** ** Exceptions and outcomes *)

Inductive pyexc : Type :=
  | Exc (class_name : string)      (* any class derived from Exception *)
  | KeyboardInterrupt
  | SystemExit
  | GeneratorExit.

(** [isinstance(e, Exception)]. *)
Definition is_Exception (e : pyexc) : bool :=
  match e with
  | Exc _ => true
  | _ => false
  end.

Inductive outcome (A : Type) : Type :=
  | Returns (a : A)
  | Raises (e : pyexc).
Arguments Returns {A} a.
Arguments Raises {A} e.

Definition bind {A B : Type} (m : outcome A) (k : A -> outcome B) : outcome B :=
  match m with
  | Returns a => k a
  | Raises e => Raises e
  end.

Notation "x <- m ;; k" := (bind m (fun x => k))
  (at level 61, m at next level, right associativity).

(** [try: body  except Exception as e: handler]. *)
Definition try_except {A : Type} (body : outcome A) (handler : pyexc -> outcome A)
  : outcome A :=
  match body with
  | Returns a => Returns a
  | Raises e => if is_Exception e then handler e else Raises e
  end.

(** ** Values, series and frames *)

Class Values : Type := {
  V : Type;
  nan : V;                 (* np.nan *)
  isna : V -> bool         (* pd.isna on a cell *)
}.

Section Program.

Context {Val : Values}.

(** Column labels: a flat [Index] or a two-level [MultiIndex]. *)
Inductive columns : Type :=
  | Index (labels : list string)
  | MultiIndex (labels : list (string * string)).

(** [columns.get_level_values(0)]. *)
Definition get_level_values0 (c : columns) : list string :=
  match c with
  | Index ls => ls
  | MultiIndex ls => map fst ls
  end.

Definition is_MultiIndex (c : columns) : bool :=
  match c with
  | MultiIndex _ => true
  | Index _ => false
  end.

(** A frame is kept row by row: every row carries its index label (the bar's
    date, a day number) and its cells, so that all columns have the length of
    the frame.  A cell missing from a row reads as [nan]. *)
Record DataFrame : Type := mkDataFrame {
  df_columns : columns;
  df_rows : list (Z * list V)
}.

Definition Series : Type := list V.

(** Python objects that flow through the program. *)
Inductive pyobj : Type :=
  | PNone
  | PInt (z : Z)
  | PScalar (v : V)
  | PStr (s : string)
  | PTimestamp (d : Z)
  | PSeries (s : Series)
  | PDataFrame (df : DataFrame).

(** [len(df)] and [len(df.columns)]. *)
Definition df_len (df : DataFrame) : nat := length (df_rows df).
Definition df_ncols (df : DataFrame) : nat := length (get_level_values0 (df_columns df)).

(** [df.empty]: true when either axis has length 0. *)
Definition df_empty (df : DataFrame) : bool :=
  (df_len df =? 0)%nat || (df_ncols df =? 0)%nat.

(** [s.empty]. *)
Definition series_empty (s : Series) : bool := (length s =? 0)%nat.

(** The column at position [j]. *)
Definition column_at (df : DataFrame) (j : nat) : Series :=
  map (fun r => nth j (snd r) nan) (df_rows df).

(** [df.iloc[:, 0]]. *)
Definition iloc_first_col (df : DataFrame) : Series := column_at df 0.

(** [s.dropna()]. *)
Definition dropna (s : Series) : Series := filter (fun v => negb (isna v)) s.

(** [s.iloc[-1]]: IndexError on an empty series. *)
Definition series_iloc_last (s : Series) : outcome V :=
  match rev s with
  | [] => Raises (Exc "IndexError")
  | v :: _ => Returns v
  end.

(** ** safe_ta_function (lines 21-48) *)

Definition safe_ta_function (func : unit -> outcome pyobj) : outcome pyobj :=
  try_except
    (result <- func tt ;;
     match result with
     | PNone => Returns (PScalar nan)
     | PDataFrame df =>
         if negb (df_empty df) then
           let first_col := iloc_first_col df in
           let last_valid := dropna first_col in
           if negb (series_empty last_valid)
           then v <- series_iloc_last last_valid ;; Returns (PScalar v)
           else Returns (PScalar nan)
         else Returns (PScalar nan)
     | PSeries s =>
         let last_valid := dropna s in
         if negb (series_empty last_valid)
         then v <- series_iloc_last last_valid ;; Returns (PScalar v)
         else Returns (PScalar nan)
     | other => Returns other
     end)
    (fun _ => Returns (PScalar nan)).

(** ** Collaborators *)

(** The market-data service (yfinance), the indicator library (pandas_ta) and
    the pandas/numpy operations applied to whole series.  Each call returns an
    object or raises.  The market-data service is the only one that depends on
    the outside world, whose state [W] is threaded through the calls. *)
Class Collaborators : Type := {
  W : Type;
  (* yf.download(ticker, start=, end=, interval="1d", progress=False) *)
  yf_download : W -> string -> Z -> Z -> outcome DataFrame * W;
  (* pd.to_datetime(s) *)
  to_datetime : string -> outcome Z;
  (* pandas_ta *)
  ta_atr : pyobj -> pyobj -> pyobj -> Z -> outcome pyobj;
  ta_sma : pyobj -> Z -> outcome pyobj;
  ta_obv : pyobj -> pyobj -> outcome pyobj;
  ta_ad : pyobj -> pyobj -> pyobj -> pyobj -> outcome pyobj;
  ta_pvt : pyobj -> pyobj -> outcome pyobj;
  ta_vwap : pyobj -> pyobj -> pyobj -> pyobj -> outcome pyobj;
  (* s.rolling(window=n).std() / .min() / .max() / .mean() *)
  rolling_std : Z -> pyobj -> outcome pyobj;
  rolling_min : Z -> pyobj -> outcome pyobj;
  rolling_max : Z -> pyobj -> outcome pyobj;
  rolling_mean : Z -> pyobj -> outcome pyobj;
  (* s.expanding().max(), s.diff(), s.ewm(span=n).mean(), np.sqrt(s) *)
  expanding_max : pyobj -> outcome pyobj;
  series_diff : pyobj -> outcome pyobj;
  ewm_mean : Z -> pyobj -> outcome pyobj;
  np_sqrt : pyobj -> outcome pyobj;
  (* a + b, a - b, a * b, a / b, a ** b *)
  py_add : pyobj -> pyobj -> outcome pyobj;
  py_sub : pyobj -> pyobj -> outcome pyobj;
  py_mul : pyobj -> pyobj -> outcome pyobj;
  py_truediv : pyobj -> pyobj -> outcome pyobj;
  py_pow : pyobj -> pyobj -> outcome pyobj
}.

Context {Col : Collaborators}.

(** ** Frame operations used by the snapshot builder *)

Fixpoint index_of (c : string) (ls : list string) : option nat :=
  match ls with
  | [] => None
  | l :: ls' => if String.eqb c l then Some O
                else option_map S (index_of c ls')
  end.

(** [col in df.columns]. *)
Definition col_in (c : string) (cols : columns) : bool :=
  existsb (String.eqb c) (get_level_values0 cols).

(** [df[col]] for a frame with one column per label: the column as a series,
    KeyError when the label is absent. *)
Definition getitem (df : DataFrame) (c : string) : outcome pyobj :=
  match index_of c (get_level_values0 (df_columns df)) with
  | Some j => Returns (PSeries (column_at df j))
  | None => Raises (Exc "KeyError")
  end.

(** [df.loc[:date]] on the ascending date index the market-data service
    returns: the bars dated [date] or earlier. *)
Definition loc_upto (df : DataFrame) (date : Z) : DataFrame :=
  mkDataFrame (df_columns df) (filter (fun r => fst r <=? date) (df_rows df)).

(** [x.iloc[-1]]. *)
Definition iloc_last (o : pyobj) : outcome pyobj :=
  match o with
  | PSeries s => v <- series_iloc_last s ;; Returns (PScalar v)
  | PDataFrame df =>
      match rev (df_rows df) with
      | [] => Raises (Exc "IndexError")
      | r :: _ => Returns (PSeries (snd r))
      end
  | _ => Raises (Exc "AttributeError")
  end.

(** [x.empty]. *)
Definition obj_empty (o : pyobj) : outcome bool :=
  match o with
  | PSeries s => Returns (series_empty s)
  | PDataFrame df => Returns (df_empty df)
  | _ => Raises (Exc "AttributeError")
  end.

(** A Python dict with string keys, in insertion order. *)
Definition dict : Type := list (string * pyobj).

Fixpoint dict_get (k : string) (d : dict) : option pyobj :=
  match d with
  | [] => None
  | (k', v) :: d' => if String.eqb k k' then Some v else dict_get k d'
  end.

Definition dict_keys (d : dict) : list string := map fst d.

Definition required_cols : list string :=
  ["Open"; "High"; "Low"; "Close"; "Volume"].

(** [df[col].iloc[-1] if not df[col].empty else np.nan] (lines 158-162). *)
Definition last_or_nan (stock : DataFrame) (col : string) : outcome pyobj :=
  s <- getitem stock col ;;
  e <- obj_empty s ;;
  if negb e
  then (s' <- getitem stock col ;; iloc_last s')
  else Returns (PScalar nan).

(** ** get_indicators_for_date (lines 50-195) *)

(** Lines 70-95: the checks on the downloaded frame.  The result is the
    frame the indicators are computed on, [None] where the function returns
    [None]. *)
Definition validate_stock (date : Z) (stock : DataFrame) : option DataFrame :=
  if df_empty stock then None else
  let stock :=
    if is_MultiIndex (df_columns stock)
    then mkDataFrame (Index (get_level_values0 (df_columns stock))) (df_rows stock)
    else stock in
  if negb (forallb (fun col => col_in col (df_columns stock)) required_cols)
  then None else
  let stock := loc_upto stock date in
  if df_empty stock then None else
  if (df_len stock <? 20)%nat then None else
  Some stock.

(** Lines 97-191: the indicators and the returned dict. *)
Definition compute_snapshot (ticker : string) (date : Z) (stock : DataFrame)
  : outcome (option dict) :=
  (* 1. ATR *)
  atr <- safe_ta_function (fun _ =>
           h <- getitem stock "High" ;; l <- getitem stock "Low" ;;
           c <- getitem stock "Close" ;; ta_atr h l c 14) ;;
  (* 2. rolling standard deviation *)
  std_dev <- (c <- getitem stock "Close" ;; r <- rolling_std 20 c ;; iloc_last r) ;;
  (* 3. Ulcer index *)
  ulcer_index <- try_except
           (close_prices <- getitem stock "Close" ;;
            max_close <- expanding_max close_prices ;;
            d <- py_sub close_prices max_close ;;
            q <- py_truediv d max_close ;;
            drawdown_pct <- py_mul q (PInt 100) ;;
            sq <- py_pow drawdown_pct (PInt 2) ;;
            m <- rolling_mean 14 sq ;;
            r <- np_sqrt m ;;
            iloc_last r)
           (fun _ => Returns (PScalar nan)) ;;
  (* 4. distance from the moving average *)
  price_distance <- safe_ta_function (fun _ =>
           c <- getitem stock "Close" ;;
           c1 <- getitem stock "Close" ;; sma1 <- ta_sma c1 20 ;;
           d <- py_sub c sma1 ;;
           c2 <- getitem stock "Close" ;; sma2 <- ta_sma c2 20 ;;
           q <- py_truediv d sma2 ;;
           py_mul q (PInt 100)) ;;
  (* 5. OBV *)
  obv <- safe_ta_function (fun _ =>
           c <- getitem stock "Close" ;; v <- getitem stock "Volume" ;;
           ta_obv c v) ;;
  (* 6. AD line *)
  ad_line <- safe_ta_function (fun _ =>
           h <- getitem stock "High" ;; l <- getitem stock "Low" ;;
           c <- getitem stock "Close" ;; v <- getitem stock "Volume" ;;
           ta_ad h l c v) ;;
  (* 7. PVT *)
  pvt <- safe_ta_function (fun _ =>
           c <- getitem stock "Close" ;; v <- getitem stock "Volume" ;;
           ta_pvt c v) ;;
  (* 8. Force index *)
  force_index <- try_except
           (c <- getitem stock "Close" ;;
            close_diff <- series_diff c ;;
            v <- getitem stock "Volume" ;;
            force_index_series <- py_mul close_diff v ;;
            m <- ewm_mean 13 force_index_series ;;
            iloc_last m)
           (fun _ => Returns (PScalar nan)) ;;
  (* 9. HLC3 *)
  hlc3 <- safe_ta_function (fun _ =>
           h <- getitem stock "High" ;; l <- getitem stock "Low" ;;
           hl <- py_add h l ;;
           c <- getitem stock "Close" ;;
           hlc <- py_add hl c ;;
           py_truediv hlc (PInt 3)) ;;
  (* 10. typical price *)
  typical_price <- safe_ta_function (fun _ =>
           h <- getitem stock "High" ;; l <- getitem stock "Low" ;;
           hl <- py_add h l ;;
           c <- getitem stock "Close" ;;
           hlc <- py_add hl c ;;
           py_truediv hlc (PInt 3)) ;;
  (* 11. VWAP, rolling min and max of volume * close *)
  vwap <- safe_ta_function (fun _ =>
           h <- getitem stock "High" ;; l <- getitem stock "Low" ;;
           c <- getitem stock "Close" ;; v <- getitem stock "Volume" ;;
           ta_vwap h l c v) ;;
  volume_close_min <-
          (v <- getitem stock "Volume" ;; c <- getitem stock "Close" ;;
           vc <- py_mul v c ;; r <- rolling_min 20 vc ;; iloc_last r) ;;
  volume_close_max <-
          (v <- getitem stock "Volume" ;; c <- getitem stock "Close" ;;
           vc <- py_mul v c ;; r <- rolling_max 20 vc ;; iloc_last r) ;;
  (* last trading day *)
  last_open <- last_or_nan stock "Open" ;;
  last_high <- last_or_nan stock "High" ;;
  last_low <- last_or_nan stock "Low" ;;
  last_close <- last_or_nan stock "Close" ;;
  last_volume <- last_or_nan stock "Volume" ;;
  Returns (Some
    [ ("ticker", PStr ticker);
      ("date", PTimestamp date);
      ("last_open", last_open);
      ("last_high", last_high);
      ("last_low", last_low);
      ("last_close", last_close);
      ("last_volume", last_volume);
      ("atr", atr);
      ("std_dev", std_dev);
      ("ulcer_index", ulcer_index);
      ("price_distance", price_distance);
      ("obv", obv);
      ("ad_line", ad_line);
      ("pvt", pvt);
      ("force_index", force_index);
      ("hlc3", hlc3);
      ("typical_price", typical_price);
      ("vwap", vwap);
      ("volume_close_min", volume_close_min);
      ("volume_close_max", volume_close_max) ]).

(** The body of the [try] block once the download has returned. *)
Definition indicators_of_stock (ticker : string) (date : Z) (stock : DataFrame)
  : outcome (option dict) :=
  match validate_stock date stock with
  | None => Returns None
  | Some bars => compute_snapshot ticker date bars
  end.

(** Lines 63-67 and 193-195, on a target date for which the two dates of
    lines 63-64 can be computed: [start] and [end_] are then [window_days]
    days before and one day after it.  That date arithmetic sits before the
    [try] and can itself raise; it is [window_bounds] below, and
    [get_indicators_for_date_at] is this function with it in front. *)
Definition get_indicators_for_date (w : W) (ticker : string) (date : Z)
    (window_days : Z) : outcome (option dict) * W :=
  let start := date - window_days in
  let end_ := date + 1 in
  let (downloaded, w') := yf_download w ticker start end_ in
  (try_except
     (stock <- downloaded ;; indicators_of_stock ticker date stock)
     (fun _ => Returns None),
   w').

(** ** save_indicators_incrementally (lines 197-216) *)

(** A line of the output file: the header or one data row.  The destination is
    [None] while the file does not exist. *)
Inductive line : Type :=
  | Header (cols : list string)
  | Row (cells : list pyobj).

Definition file : Type := option (list line).

(** [pd.DataFrame(list_of_dicts)]: the columns are the keys in order of first
    appearance, a key missing from a dict gives a [nan] cell. *)
Definition union_keys (acc : list string) (d : dict) : list string :=
  acc ++ filter (fun k => negb (existsb (String.eqb k) acc)) (dict_keys d).

Definition records_columns (data : list dict) : list string :=
  fold_left union_keys data [].

Definition records_row (cols : list string) (d : dict) : list pyobj :=
  map (fun c => match dict_get c d with
                | Some v => v
                | None => PScalar nan
                end) cols.

(** [df.to_csv(f, index=False, mode='w')] and
    [df.to_csv(f, index=False, mode='a', header=False)]; opening in append
    mode creates a missing file. *)
Definition to_csv_w (cols : list string) (rows : list line) : file :=
  Some (Header cols :: rows).

Definition to_csv_a (cols : list string) (rows : list line) (f : file) : file :=
  match f with
  | Some old => Some (old ++ rows)
  | None => Some rows
  end.

Definition save_indicators_incrementally (indicators_data : list dict)
    (output_file : file) (is_first_batch : bool) : file :=
  match indicators_data with
  | [] => output_file
  | _ =>
      let cols := records_columns indicators_data in
      let rows := map (fun d => Row (records_row cols d)) indicators_data in
      if is_first_batch
      then to_csv_w cols rows
      else to_csv_a cols rows output_file
  end.

(** ** enrich_dataset_with_indicators (lines 218-323) *)

(** One row of the input table: [row['ticker']] and [row['time']], the latter
    a string or an already parsed date. *)
Inductive timecell : Type :=
  | TimeStr (s : string)
  | TimeObj (d : Z).

Record request : Type := mkRequest {
  req_ticker : string;
  req_time : timecell
}.

(** The variables of the loop (lines 250-256) with the destination and the
    outside world. *)
Record run_state : Type := mkState {
  processed_records : nat;
  successful_fetches : nat;
  failed_fetches : nat;
  batch_count : nat;
  output_file : file;
  world : W
}.

(** Lines 277-281: the date of the row. *)
Definition row_date (row : request) : outcome Z :=
  match req_time row with
  | TimeStr s => to_datetime s
  | TimeObj d => Returns d
  end.

(** Lines 277-283: the date of the row, then the snapshot. *)
Definition fetch_row (w : W) (row : request) : outcome (option dict) * W :=
  match row_date row with
  | Raises e => (Raises e, w)
  | Returns date_obj => get_indicators_for_date w (req_ticker row) date_obj 90
  end.

(** One turn of the inner loop (lines 273-293). *)
Definition process_row (st : run_state) (batch_indicators : list dict)
    (row : request) : outcome (list dict) * run_state :=
  let processed := S (processed_records st) in
  let (result, w') := fetch_row (world st) row in
  match result with
  | Raises e =>
      (Raises e,
       mkState processed (successful_fetches st) (failed_fetches st)
               (batch_count st) (output_file st) w')
  | Returns (Some r) =>
      (Returns (batch_indicators ++ [r]),
       mkState processed (S (successful_fetches st)) (failed_fetches st)
               (batch_count st) (output_file st) w')
  | Returns None =>
      (Returns batch_indicators,
       mkState processed (successful_fetches st) (S (failed_fetches st))
               (batch_count st) (output_file st) w')
  end.

(** The inner loop over [batch_df.iterrows()]. *)
Fixpoint iterrows (st : run_state) (batch_indicators : list dict)
    (batch_df : list request) : outcome (list dict) * run_state :=
  match batch_df with
  | [] => (Returns batch_indicators, st)
  | row :: rest =>
      match process_row st batch_indicators row with
      | (Raises e, st') => (Raises e, st')
      | (Returns batch_indicators', st') => iterrows st' batch_indicators' rest
      end
  end.

(** One turn of the outer loop (lines 263-304) on the slice [batch_df]. *)
Definition process_batch (st : run_state) (batch_df : list request)
  : outcome unit * run_state :=
  let st1 := mkState (processed_records st) (successful_fetches st)
                     (failed_fetches st) (S (batch_count st))
                     (output_file st) (world st) in
  match iterrows st1 [] batch_df with
  | (Raises e, st2) => (Raises e, st2)
  | (Returns batch_indicators, st2) =>
      match batch_indicators with
      | [] => (Returns tt, st2)
      | _ =>
          let is_first_batch := (batch_count st2 =? 1)%nat in
          (Returns tt,
           mkState (processed_records st2) (successful_fetches st2)
                   (failed_fetches st2) (batch_count st2)
                   (save_indicators_incrementally batch_indicators
                      (output_file st2) is_first_batch)
                   (world st2))
      end
  end.

(** [range(start, stop, step)]: ValueError for a zero step. *)
Definition py_range (start stop step : Z) : outcome (list Z) :=
  if step =? 0 then Raises (Exc "ValueError")
  else
    let n := if 0 <? step
             then (stop - start + step - 1) / step
             else (start - stop - step - 1) / (- step) in
    Returns (map (fun i => start + Z.of_nat i * step) (seq 0 (Z.to_nat n))).

(** [df.iloc[start:end]] for [0 <= start <= end]. *)
Definition iloc_slice {A : Type} (df : list A) (start end_ : Z) : list A :=
  firstn (Z.to_nat (end_ - start)) (skipn (Z.to_nat start) df).

(** The outer loop, over the slices in order. *)
Fixpoint batches_loop (st : run_state) (batches : list (list request))
  : outcome unit * run_state :=
  match batches with
  | [] => (Returns tt, st)
  | batch_df :: rest =>
      match process_batch st batch_df with
      | (Raises e, st') => (Raises e, st')
      | (Returns _, st') => batches_loop st' rest
      end
  end.

(** Lines 262-264: the slices of [df] the loop visits. *)
Definition batch_slices (df : list request) (batch_size : Z)
  : outcome (list (list request)) :=
  let total_records := Z.of_nat (length df) in
  starts <- py_range 0 total_records batch_size ;;
  Returns (map (fun start_idx =>
                  let end_idx := Z.min (start_idx + batch_size) total_records in
                  iloc_slice df start_idx end_idx) starts).

(** The loop of lines 262-304 from the initial counters. *)
Definition enrichment_loop (df : list request) (batch_size : Z) (out : file)
    (w : W) : outcome unit * run_state :=
  let st0 := mkState 0 0 0 0 out w in
  match batch_slices df batch_size with
  | Raises e => (Raises e, st0)
  | Returns batches => batches_loop st0 batches
  end.

(** [s.lower()] on ASCII letters. *)
Definition ascii_lower (c : ascii) : ascii :=
  let n := nat_of_ascii c in
  if ((65 <=? n) && (n <=? 90))%nat then ascii_of_nat (n + 32) else c.

Fixpoint lower (s : string) : string :=
  match s with
  | EmptyString => EmptyString
  | String c s' => String (ascii_lower c) (lower s')
  end.

(** The whole function on the loaded table [df]: the overwrite prompt
    (lines 242-248, [response] is what the operator types), the loop and the
    final summary, whose success rate divides by the number of processed
    records (line 313).  The read-back of the destination (lines 317-323) only
    prints and is left out. *)
Definition enrich_dataset_with_indicators (df : list request) (out : file)
    (response : string) (batch_size : Z) (w : W) : outcome unit * run_state :=
  let cancelled :=
    match out with
    | Some _ => negb (String.eqb (lower response) "y")
    | None => false
    end in
  if cancelled then (Returns tt, mkState 0 0 0 0 out w)
  else
    (* os.remove(output_file) when it existed *)
    match enrichment_loop df batch_size None w with
    | (Raises e, st) => (Raises e, st)
    | (Returns _, st) =>
        if (processed_records st =? 0)%nat
        then (Raises (Exc "ZeroDivisionError"), st)
        else (Returns tt, st)
    end.

(** ** Vocabulary for the statements *)

(** The keys of the dict literal of lines 165-191, in order. *)
Definition snapshot_keys : list string :=
  [ "ticker"; "date"; "last_open"; "last_high"; "last_low"; "last_close";
    "last_volume"; "atr"; "std_dev"; "ulcer_index"; "price_distance"; "obv";
    "ad_line"; "pvt"; "force_index"; "hlc3"; "typical_price"; "vwap";
    "volume_close_min"; "volume_close_max" ].

(** The computation behind both [hlc3] and [typical_price]:
    [(stock["High"] + stock["Low"] + stock["Close"]) / 3]. *)
Definition high_low_close_mean (stock : DataFrame) : unit -> outcome pyobj :=
  fun _ =>
    h <- getitem stock "High" ;; l <- getitem stock "Low" ;;
    hl <- py_add h l ;;
    c <- getitem stock "Close" ;;
    hlc <- py_add hl c ;;
    py_truediv hlc (PInt 3).

(** The cell of a bar under a column label. *)
Definition bar_cell (df : DataFrame) (bar : Z * list V) (col : string) : option V :=
  option_map (fun j => nth j (snd bar) nan)
             (index_of col (get_level_values0 (df_columns df))).

(** The rows of the input taken one after the other, in input order, without
    any batching: what [fetch_row] gives for each, threading the world, and
    stopping at the first exception that escapes. *)
Fixpoint fetch_all (w : W) (rows : list request)
  : outcome (list (option dict)) * W :=
  match rows with
  | [] => (Returns [], w)
  | row :: rest =>
      match fetch_row w row with
      | (Raises e, w') => (Raises e, w')
      | (Returns r, w') =>
          match fetch_all w' rest with
          | (Raises e, w'') => (Raises e, w'')
          | (Returns rs, w'') => (Returns (r :: rs), w'')
          end
      end
  end.

(** The snapshots among the results, in order. *)
Fixpoint successes (rs : list (option dict)) : list dict :=
  match rs with
  | [] => []
  | Some d :: rs' => d :: successes rs'
  | None :: rs' => successes rs'
  end.

(** The lines of a destination, none while it does not exist. *)
Definition file_lines (f : file) : list line :=
  match f with
  | Some ls => ls
  | None => []
  end.

Definition is_header (l : line) : bool :=
  match l with
  | Header _ => true
  | Row _ => false
  end.

(** The data rows of a destination, in file order, and the number of its
    header lines. *)
Definition data_rows (f : file) : list (list pyobj) :=
  flat_map (fun l => match l with
                     | Row cells => [cells]
                     | Header _ => []
                     end) (file_lines f).

Definition header_count (f : file) : nat :=
  length (filter is_header (file_lines f)).

(** The lines [to_csv] writes for the rows of a batch. *)
Definition batch_rows (batch : list dict) : list line :=
  map (fun d => Row (records_row (records_columns batch) d)) batch.

(** The sizes of the slices. *)
Definition fmap_lengths (batches : outcome (list (list request)))
  : outcome (list nat) :=
  b <- batches ;; Returns (map (@length request) b).

(** The rows of snapshots under the columns of the dict literal. *)
Definition snapshot_rows (ds : list dict) : list line :=
  map (fun d => Row (records_row snapshot_keys d)) ds.

(** Appending rows to a destination; nothing is touched when there is no row
    to append. *)
Definition append_rows (f : file) (rows : list line) : file :=
  match rows with
  | [] => f
  | _ => Some (file_lines f ++ rows)
  end.

(** The writer called in turn on the batches [later], each with
    [is_first_batch = False]. *)
Definition append_batches (f : file) (later : list (list dict)) : file :=
  fold_left (fun f b => save_indicators_incrementally b f false) later f.

End Program.

(** ** A concrete instance

    Integer-valued cells and small deterministic collaborators, used to run
    the program on explicit inputs. *)
Module Stub.

Inductive cell : Type :=
  | NaN
  | Num (z : Z).

Definition cell_isna (c : cell) : bool :=
  match c with
  | NaN => true
  | Num _ => false
  end.

#[export] Instance cells : Values :=
  {| V := cell; nan := NaN; isna := cell_isna |}.

Definition cell_op (f : Z -> Z -> Z) (a b : cell) : cell :=
  match a, b with
  | Num x, Num y => Num (f x y)
  | _, _ => NaN
  end.

Definition elementwise (f : Z -> Z -> Z) (a b : pyobj) : outcome pyobj :=
  match a, b with
  | PSeries x, PSeries y =>
      Returns (PSeries (map (fun p => cell_op f (fst p) (snd p)) (combine x y)))
  | PSeries x, PInt k =>
      Returns (PSeries (map (fun c => cell_op f c (Num k)) x))
  | _, _ => Raises (Exc "TypeError")
  end.

Definition ohlcv : columns := Index ["Open"; "High"; "Low"; "Close"; "Volume"].

(** The bar of day [d]: open, high, low, close, volume. *)
Definition bar (d : Z) : Z * list cell :=
  (d, [Num (100 + d); Num (110 + d); Num (90 + d); Num (105 + d); Num 1000]).

Definition bars (first : Z) (n : nat) : list (Z * list cell) :=
  map (fun i => bar (first + Z.of_nat i)) (seq 0 n).

(** The market-data service: 21 bars up to the target date for "FULL", 19 for
    "SHORT", none for "NONE", an interrupt for "STOP", a transport error for
    any other ticker.  The world counts the calls. *)
Definition download (w : nat) (ticker : string) (start end_ : Z)
  : outcome DataFrame * nat :=
  ((if String.eqb ticker "FULL" then Returns (mkDataFrame ohlcv (bars (end_ - 21) 21))
    else if String.eqb ticker "SHORT" then Returns (mkDataFrame ohlcv (bars (end_ - 19) 19))
    else if String.eqb ticker "NONE" then Returns (mkDataFrame ohlcv [])
    else if String.eqb ticker "STOP" then Raises KeyboardInterrupt
    else Raises (Exc "ConnectionError")),
   S w).

(** [std_fails] makes the rolling standard deviation raise, [max_fails] the
    expanding maximum used by the Ulcer index. *)
Definition collaborators (std_fails max_fails : bool) : Collaborators :=
  {| W := nat;
     yf_download := download;
     to_datetime := fun s => if String.eqb s "" then Raises (Exc "ValueError")
                             else Returns (Z.of_nat (String.length s));
     ta_atr := fun h l _ _ => elementwise Z.sub h l;
     ta_sma := fun _ _ => Returns PNone;
     ta_obv := fun _ v => Returns v;
     ta_ad := fun _ _ _ _ => Returns PNone;
     ta_pvt := fun _ _ => Raises (Exc "ValueError");
     ta_vwap := fun _ _ c _ => Returns c;
     rolling_std := fun _ x => if std_fails then Raises (Exc "DataError") else Returns x;
     rolling_min := fun _ x => Returns x;
     rolling_max := fun _ x => Returns x;
     rolling_mean := fun _ x => Returns x;
     expanding_max := fun x => if max_fails then Raises (Exc "DataError") else Returns x;
     series_diff := fun x => Returns x;
     ewm_mean := fun _ x => Returns x;
     np_sqrt := fun x => Returns x;
     py_add := elementwise Z.add;
     py_sub := elementwise Z.sub;
     py_mul := elementwise Z.mul;
     py_truediv := elementwise Z.div;
     py_pow := elementwise Z.pow |}.

Definition healthy : Collaborators := collaborators false false.

(** Explicit inputs. *)
Definition demo_df : list request :=
  [ mkRequest "FULL" (TimeObj 100);
    mkRequest "NONE" (TimeObj 100);
    mkRequest "FULL" (TimeStr "2024-01-02") ].

Definition demo_rs : list (option dict) :=
  Eval vm_compute in
    match fst (fetch_all (Col := healthy) 0%nat demo_df) with
    | Returns rs => rs
    | Raises _ => []
    end.

(** A table whose first row gives no snapshot. *)
Definition late_df : list request :=
  [ mkRequest "NONE" (TimeObj 100); mkRequest "FULL" (TimeObj 100) ].

Definition late_rs : list (option dict) :=
  Eval vm_compute in
    match fst (fetch_all (Col := healthy) 0%nat late_df) with
    | Returns rs => rs
    | Raises _ => []
    end.

Definition demo_snapshot : dict :=
  Eval vm_compute in
    match fst (get_indicators_for_date (Col := healthy) 0%nat "FULL" 100 90) with
    | Returns (Some d) => d
    | _ => []
    end.

Definition full_stock : DataFrame := mkDataFrame ohlcv (bars 80 21).
Definition short_stock : DataFrame := mkDataFrame ohlcv (bars 82 19).

End Stub.

(** ** The read-back of the destination and [main] *)

Section EntryPoint.

Context {Val : Values} {Col : Collaborators}.

(** The columns printed at the end of a run (line 323). *)
Definition verification_columns : list string :=
  ["ticker"; "date"; "atr"; "obv"; "pvt"; "hlc3"].

(** The column names [pd.read_csv] gives a file: those of its first line,
    which it takes for the header.  [csv_text] is the text [to_csv] writes for
    a cell.  pandas renames a repeated name to [name.1] and an empty one to
    [Unnamed: k]; none of the names looked up at line 323 can come from such a
    renaming, so the first line's texts are kept as they are.  An empty file
    raises EmptyDataError. *)
Definition read_csv_columns (csv_text : pyobj -> string) (ls : list line)
  : outcome (list string) :=
  match ls with
  | [] => Raises (Exc "EmptyDataError")
  | Header cols :: _ => Returns cols
  | Row cells :: _ => Returns (map csv_text cells)
  end.

(** Lines 317-323: when the destination exists it is read back and six of
    its columns are selected, KeyError when one of them is missing. *)
Definition read_back (csv_text : pyobj -> string) (f : file) : outcome unit :=
  match f with
  | None => Returns tt
  | Some ls =>
      cols <- read_csv_columns csv_text ls ;;
      if forallb (fun c => existsb (String.eqb c) cols) verification_columns
      then Returns tt
      else Raises (Exc "KeyError")
  end.

(** Lines 218-323 with the read-back: [enrich_dataset_with_indicators]
    followed, when the run was not cancelled at line 247 and reached the end
    of the summary, by [read_back]. *)
Definition enrich_and_read_back (csv_text : pyobj -> string) (df : list request)
    (out : file) (response : string) (batch_size : Z) (w : W)
  : outcome unit * run_state :=
  let cancelled :=
    match out with
    | Some _ => negb (String.eqb (lower response) "y")
    | None => false
    end in
  match enrich_dataset_with_indicators df out response batch_size w with
  | (Raises e, st) => (Raises e, st)
  | (Returns _, st) =>
      if cancelled then (Returns tt, st)
      else (read_back csv_text (output_file st), st)
  end.

(** What [main] prints last. *)
Inductive report : Type :=
  | InputNotFound          (* "Error: Input file ... not found!" *)
  | Completed              (* "Enrichment process completed successfully!" *)
  | Interrupted            (* "Process interrupted by user." *)
  | Failed (e : pyexc).    (* "Error during enrichment: ..." *)

(** [main] (lines 325-352).  [input] is the table of the input file, [None]
    when the file does not exist; the batch size is 25.  The result is the
    last message, the destination and the world. *)
Definition main (csv_text : pyobj -> string) (input : option (list request))
    (out : file) (response : string) (w : W) : outcome report * file * W :=
  match input with
  | None => (Returns InputNotFound, out, w)
  | Some df =>
      match enrich_and_read_back csv_text df out response 25 w with
      | (Returns _, st) => (Returns Completed, output_file st, world st)
      | (Raises KeyboardInterrupt, st) =>
          (Returns Interrupted, output_file st, world st)
      | (Raises e, st) =>
          if is_Exception e
          then (Returns (Failed e), output_file st, world st)
          else (Raises e, output_file st, world st)
      end
  end.

(** Lines 63-64, evaluated before the [try] of line 66:
    [date - timedelta(days=window_days)] and [date + timedelta(days=1)].
    Arithmetic on dates belongs to datetime and pandas, which raise
    OverflowError or OutOfBoundsDatetime when the result is not a date they
    can represent; [shift d n] stands for [d + timedelta(days=n)].  The
    target date is a date: a cell of another kind, on which line 63 raises
    TypeError, is not a value of this type. *)
Definition window_bounds (shift : Z -> Z -> outcome Z) (date window_days : Z)
  : outcome (Z * Z) :=
  start <- shift date (- window_days) ;;
  end_ <- shift date 1 ;;
  Returns (start, end_).

(** [get_indicators_for_date] (lines 50-195) with the date arithmetic as the
    code has it: an exception of lines 63-64 leaves the function before
    anything is downloaded. *)
Definition get_indicators_for_date_at (shift : Z -> Z -> outcome Z) (w : W)
    (ticker : string) (date window_days : Z) : outcome (option dict) * W :=
  match window_bounds shift date window_days with
  | Raises e => (Raises e, w)
  | Returns (start, end_) =>
      let (downloaded, w') := yf_download w ticker start end_ in
      (try_except
         (stock <- downloaded ;; indicators_of_stock ticker date stock)
         (fun _ => Returns None),
       w')
  end.

(** [ceil(n / d)] as [range] counts. *)
Definition ceil_div (n d : Z) : Z := (n + d - 1) / d.

(** The first snapshot among the results. *)
Definition first_success (rs : list (option dict)) : option dict :=
  hd_error (successes rs).

(** The two indicators computed by hand inside their own [try] block: the
    statements of lines 110-113 and of lines 134-137. *)
Definition ulcer_index_steps (stock : DataFrame) : outcome pyobj :=
  close_prices <- getitem stock "Close" ;;
  max_close <- expanding_max close_prices ;;
  d <- py_sub close_prices max_close ;;
  q <- py_truediv d max_close ;;
  drawdown_pct <- py_mul q (PInt 100) ;;
  sq <- py_pow drawdown_pct (PInt 2) ;;
  m <- rolling_mean 14 sq ;;
  r <- np_sqrt m ;;
  iloc_last r.

Definition force_index_steps (stock : DataFrame) : outcome pyobj :=
  c <- getitem stock "Close" ;;
  close_diff <- series_diff c ;;
  v <- getitem stock "Volume" ;;
  force_index_series <- py_mul close_diff v ;;
  m <- ewm_mean 13 force_index_series ;;
  iloc_last m.

End EntryPoint.

(** Explicit inputs for the entry point and the interrupted runs. *)
Module Inputs.

Import Stub.

(** A text for each cell: a string as it is, a mark for a number and for a
    date, nothing for [nan]. *)
Definition cell_text (o : pyobj) : string :=
  match o with
  | PStr s => s
  | PScalar (Num _) => "1.0"
  | PTimestamp _ => "2024-01-02"
  | _ => ""
  end.

(** Five rows; the fourth is interrupted. *)
Definition stopped_df : list request :=
  [ mkRequest "FULL" (TimeObj 100);
    mkRequest "NONE" (TimeObj 100);
    mkRequest "FULL" (TimeObj 100);
    mkRequest "STOP" (TimeObj 100);
    mkRequest "FULL" (TimeObj 100) ].

Definition stopped_done : list (list request) :=
  [ [ mkRequest "FULL" (TimeObj 100); mkRequest "NONE" (TimeObj 100) ] ].

Definition stopped_done_rs : list (option dict) :=
  Eval vm_compute in
    match fst (fetch_all (Col := healthy) 0%nat (concat stopped_done)) with
    | Returns rs => rs
    | Raises _ => []
    end.

Definition stopped_cur_rs : list (option dict) :=
  Eval vm_compute in
    match fst (fetch_all (Col := healthy) 2%nat [mkRequest "FULL" (TimeObj 100)]) with
    | Returns rs => rs
    | Raises _ => []
    end.

(** The snapshot of "FULL" when the expanding maximum raises. *)
Definition ulcer_failed_snapshot : dict :=
  Eval vm_compute in
    match compute_snapshot (Col := collaborators false true) "FULL" 100 full_stock with
    | Returns (Some d) => d
    | _ => []
    end.

(** Date arithmetic on day numbers counted from 1970-01-01: the midnights a
    pandas Timestamp can hold run from day -106751 (1677-09-22) to day 106751
    (2262-04-11). *)
Definition bounded_shift (d n : Z) : outcome Z :=
  if (-106751 <=? d + n) && (d + n <=? 106751)
  then Returns (d + n)
  else Raises (Exc "OutOfBoundsDatetime").

(** Two rows, the second interrupted. *)
Definition short_stopped_df : list request :=
  [ mkRequest "FULL" (TimeObj 100); mkRequest "STOP" (TimeObj 100) ].

(** A table with two columns. *)
Definition two_columns : DataFrame :=
  mkDataFrame (Index ["a"; "b"])
    [ (1, [Num 1; NaN]); (2, [Num 2; Num 7]); (3, [NaN; Num 9]) ].

End Inputs.

(** * Properties *)

Section NormalizerFacts.

Context {Val : Values}.

Lemma bind_Returns_inv {A B : Type} (m : outcome A) (k : A -> outcome B) (b : B) :
  bind m k = Returns b -> exists a, m = Returns a /\ k a = Returns b.
Proof.
  destruct m as [a | e]; simpl; intros H.
  - exists a. split; [reflexivity | exact H].
  - discriminate H.
Qed.

Lemma series_empty_rev (s : Series) :
  series_empty s = match rev s with [] => true | _ :: _ => false end.
Proof.
  unfold series_empty.
  rewrite <- (length_rev s).
  destruct (rev s); reflexivity.
Qed.

(** The two lines shared by the table and the sequence branches: the last
    entry that survives [dropna], [nan] when none does. *)
Lemma last_valid_value (s : Series) :
  (if negb (series_empty (dropna s))
   then v <- series_iloc_last (dropna s) ;; Returns (PScalar v)
   else Returns (PScalar nan))
  = Returns (PScalar (match rev (dropna s) with v :: _ => v | [] => nan end)).
Proof.
  rewrite series_empty_rev. unfold series_iloc_last.
  destruct (rev (dropna s)); reflexivity.
Qed.

Lemma dropna_all_missing (s : Series) :
  (forall v, In v s -> isna v = true) -> dropna s = [].
Proof.
  induction s as [| x s IH]; intros Hall; simpl.
  - reflexivity.
  - rewrite (Hall x (or_introl eq_refl)). simpl.
    apply IH. intros v Hv. apply Hall. right. exact Hv.
Qed.

(** Scanning backward from the end, [v] is the first entry that is not
    missing: it is what [dropna] keeps last. *)
Lemma dropna_most_recent (pre post : Series) (v : V) :
  isna v = false ->
  (forall x, In x post -> isna x = true) ->
  rev (dropna (pre ++ v :: post)) = v :: rev (dropna pre).
Proof.
  intros Hv Hpost. unfold dropna.
  rewrite filter_app. simpl. rewrite Hv. simpl.
  fold (dropna post). rewrite (dropna_all_missing post Hpost).
  rewrite rev_app_distr. reflexivity.
Qed.

Lemma safe_ta_function_Returns (func : unit -> outcome pyobj) (r : pyobj) :
  func tt = Returns r ->
  safe_ta_function func =
    match r with
    | PNone => Returns (PScalar nan)
    | PDataFrame df =>
        if df_empty df then Returns (PScalar nan)
        else Returns (PScalar (match rev (dropna (iloc_first_col df)) with
                               | v :: _ => v
                               | [] => nan
                               end))
    | PSeries s =>
        Returns (PScalar (match rev (dropna s) with v :: _ => v | [] => nan end))
    | other => Returns other
    end.
Proof.
  intros Hf. unfold safe_ta_function. rewrite Hf. simpl.
  destruct r; try reflexivity.
  - rewrite last_valid_value. reflexivity.
  - destruct (df_empty df); simpl; [reflexivity |].
    rewrite last_valid_value. reflexivity.
Qed.

Lemma safe_ta_function_Raises (func : unit -> outcome pyobj) (e : pyexc) :
  func tt = Raises e ->
  safe_ta_function func =
    if is_Exception e then Returns (PScalar nan) else Raises e.
Proof.
  intros Hf. unfold safe_ta_function. rewrite Hf. reflexivity.
Qed.

(** C2.  On a computation that returns, [safe_ta_function] gives [nan]
    (Unavailable) for an absent result, an empty table, an empty sequence and
    a sequence or first column whose entries are all missing; the last
    non-missing entry of the first column for a non-empty table; the last
    non-missing entry for a sequence; and a bare scalar unchanged. *)
Theorem safe_ta_function_normalizes :
  forall func : unit -> outcome pyobj,
    (func tt = Returns PNone ->
       safe_ta_function func = Returns (PScalar nan))
    /\ (forall df, func tt = Returns (PDataFrame df) -> df_empty df = true ->
          safe_ta_function func = Returns (PScalar nan))
    /\ (func tt = Returns (PSeries []) ->
          safe_ta_function func = Returns (PScalar nan))
    /\ (forall s, func tt = Returns (PSeries s) ->
          (forall x, In x s -> isna x = true) ->
          safe_ta_function func = Returns (PScalar nan))
    /\ (forall df, func tt = Returns (PDataFrame df) ->
          (forall x, In x (iloc_first_col df) -> isna x = true) ->
          safe_ta_function func = Returns (PScalar nan))
    /\ (forall df pre v post, func tt = Returns (PDataFrame df) ->
          df_empty df = false ->
          iloc_first_col df = pre ++ v :: post ->
          isna v = false ->
          (forall x, In x post -> isna x = true) ->
          safe_ta_function func = Returns (PScalar v))
    /\ (forall pre v post, func tt = Returns (PSeries (pre ++ v :: post)) ->
          isna v = false ->
          (forall x, In x post -> isna x = true) ->
          safe_ta_function func = Returns (PScalar v))
    /\ (forall v, func tt = Returns (PScalar v) ->
          safe_ta_function func = Returns (PScalar v))
    /\ (forall z, func tt = Returns (PInt z) ->
          safe_ta_function func = Returns (PInt z)).
Proof.
  intros func. repeat split.
  - intros H. rewrite (safe_ta_function_Returns _ _ H). reflexivity.
  - intros df H He. rewrite (safe_ta_function_Returns _ _ H), He. reflexivity.
  - intros H. rewrite (safe_ta_function_Returns _ _ H). reflexivity.
  - intros s H Hall. rewrite (safe_ta_function_Returns _ _ H).
    rewrite (dropna_all_missing s Hall). reflexivity.
  - intros df H Hall. rewrite (safe_ta_function_Returns _ _ H).
    rewrite (dropna_all_missing _ Hall). simpl.
    destruct (df_empty df); reflexivity.
  - intros df pre v post H He Hcol Hv Hpost.
    rewrite (safe_ta_function_Returns _ _ H), He, Hcol.
    rewrite (dropna_most_recent pre post v Hv Hpost). reflexivity.
  - intros pre v post H Hv Hpost.
    rewrite (safe_ta_function_Returns _ _ H).
    rewrite (dropna_most_recent pre post v Hv Hpost). reflexivity.
  - intros v H. rewrite (safe_ta_function_Returns _ _ H). reflexivity.
  - intros z H. rewrite (safe_ta_function_Returns _ _ H). reflexivity.
Qed.

(** C3, as amended.  A computation that returns, or that raises an exception
    derived from [Exception], makes [safe_ta_function] return a value, [nan]
    in the failure case; nothing is propagated. *)
Theorem safe_ta_function_catches_Exception :
  forall func : unit -> outcome pyobj,
    (forall e, func tt = Raises e -> is_Exception e = true) ->
    (exists v, safe_ta_function func = Returns v)
    /\ (forall e, func tt = Raises e ->
          safe_ta_function func = Returns (PScalar nan)).
Proof.
  intros func Hexc. split.
  - destruct (func tt) as [r | e] eqn:Hf.
    + rewrite (safe_ta_function_Returns _ _ Hf).
      destruct r; try (eexists; reflexivity).
      destruct (df_empty df); eexists; reflexivity.
    + rewrite (safe_ta_function_Raises _ _ Hf), (Hexc e eq_refl).
      eexists; reflexivity.
  - intros e Hf.
    rewrite (safe_ta_function_Raises _ _ Hf), (Hexc e Hf). reflexivity.
Qed.

End NormalizerFacts.

Section BuilderFacts.

Context {Val : Values} {Col : Collaborators}.

Ltac bind_inv H :=
  let a := fresh "x" in
  let Ha := fresh "Hx" in
  apply bind_Returns_inv in H; destruct H as (a & Ha & H).

Lemma index_of_present (c : string) (ls : list string) :
  existsb (String.eqb c) ls = true -> exists j, index_of c ls = Some j.
Proof.
  induction ls as [| l ls IH]; simpl; intros H.
  - discriminate H.
  - destruct (String.eqb c l).
    + exists O. reflexivity.
    + destruct (IH H) as (j & Hj). rewrite Hj. exists (S j). reflexivity.
Qed.

Lemma column_at_length (df : DataFrame) (j : nat) :
  length (column_at df j) = df_len df.
Proof. unfold column_at, df_len. apply length_map. Qed.

(** The frame that passes lines 70-95: the downloaded bars dated up to the
    target date, at least 20 of them, under labels that include the five
    required ones. *)
Lemma validate_stock_Some (date : Z) (stock bars : DataFrame) :
  validate_stock date stock = Some bars ->
  df_rows bars = filter (fun r => fst r <=? date) (df_rows stock)
  /\ get_level_values0 (df_columns bars) = get_level_values0 (df_columns stock)
  /\ forallb (fun col => col_in col (df_columns bars)) required_cols = true
  /\ (20 <= df_len bars)%nat.
Proof.
  unfold validate_stock.
  destruct (df_empty stock); [discriminate |].
  set (flat := if is_MultiIndex (df_columns stock) then _ else _).
  assert (Hrows : df_rows flat = df_rows stock)
    by (subst flat; destruct (is_MultiIndex _); reflexivity).
  assert (Hcols : get_level_values0 (df_columns flat)
                  = get_level_values0 (df_columns stock))
    by (subst flat; destruct (is_MultiIndex _); reflexivity).
  destruct (forallb _ required_cols) eqn:Hreq; simpl; [| discriminate].
  destruct (df_empty (loc_upto flat date)); [discriminate |].
  destruct (df_len (loc_upto flat date) <? 20)%nat eqn:Hlen; [discriminate |].
  intros H. injection H as <-.
  apply Nat.ltb_ge in Hlen.
  simpl. rewrite Hrows. repeat split; assumption.
Qed.

Lemma validate_stock_short (date : Z) (stock : DataFrame) :
  (df_len (loc_upto stock date) < 20)%nat ->
  validate_stock date stock = None.
Proof.
  intros Hshort. unfold validate_stock.
  destruct (df_empty stock); [reflexivity |].
  set (flat := if is_MultiIndex (df_columns stock) then _ else _).
  assert (Hrows : df_rows flat = df_rows stock)
    by (subst flat; destruct (is_MultiIndex _); reflexivity).
  destruct (negb _); [reflexivity |].
  destruct (df_empty (loc_upto flat date)); [reflexivity |].
  assert (Hlen : df_len (loc_upto flat date) = df_len (loc_upto stock date))
    by (unfold df_len, loc_upto; simpl; rewrite Hrows; reflexivity).
  rewrite Hlen.
  apply Nat.ltb_lt in Hshort. rewrite Hshort. reflexivity.
Qed.

Lemma required_col_in (df : DataFrame) (col : string) :
  forallb (fun c => col_in c (df_columns df)) required_cols = true ->
  In col required_cols ->
  exists j, index_of col (get_level_values0 (df_columns df)) = Some j.
Proof.
  intros Hall Hin.
  apply index_of_present.
  rewrite forallb_forall in Hall. exact (Hall col Hin).
Qed.

(** On a frame with at least one bar, a present column is not empty and
    lines 158-162 read the last bar's cell. *)
Lemma last_or_nan_last_bar (df : DataFrame) (col : string) (j : nat)
    (bar : Z * list V) (earlier : list (Z * list V)) :
  index_of col (get_level_values0 (df_columns df)) = Some j ->
  rev (df_rows df) = bar :: earlier ->
  getitem df col = Returns (PSeries (column_at df j))
  /\ series_empty (column_at df j) = false
  /\ last_or_nan df col = Returns (PScalar (nth j (snd bar) nan)).
Proof.
  intros Hj Hrev.
  assert (Hget : getitem df col = Returns (PSeries (column_at df j)))
    by (unfold getitem; rewrite Hj; reflexivity).
  assert (Hcol : rev (column_at df j)
                 = nth j (snd bar) nan
                   :: map (fun r => nth j (snd r) nan) earlier)
    by (unfold column_at; rewrite <- map_rev, Hrev; reflexivity).
  assert (Hne : series_empty (column_at df j) = false)
    by (rewrite series_empty_rev, Hcol; reflexivity).
  repeat split; try assumption.
  unfold last_or_nan. rewrite Hget. simpl. rewrite Hne. simpl.
  unfold series_iloc_last. rewrite Hcol. reflexivity.
Qed.

(** What a returned snapshot is made of. *)
Lemma compute_snapshot_inv (ticker : string) (date : Z) (stock : DataFrame)
    (o : option dict) :
  compute_snapshot ticker date stock = Returns o ->
  exists last_open last_high last_low last_close last_volume
         atr std_dev ulcer_index price_distance obv ad_line pvt force_index
         hlc3 vwap volume_close_min volume_close_max,
    o = Some
      [ ("ticker", PStr ticker);
        ("date", PTimestamp date);
        ("last_open", last_open);
        ("last_high", last_high);
        ("last_low", last_low);
        ("last_close", last_close);
        ("last_volume", last_volume);
        ("atr", atr);
        ("std_dev", std_dev);
        ("ulcer_index", ulcer_index);
        ("price_distance", price_distance);
        ("obv", obv);
        ("ad_line", ad_line);
        ("pvt", pvt);
        ("force_index", force_index);
        ("hlc3", hlc3);
        ("typical_price", hlc3);
        ("vwap", vwap);
        ("volume_close_min", volume_close_min);
        ("volume_close_max", volume_close_max) ]
    /\ safe_ta_function (high_low_close_mean stock) = Returns hlc3
    /\ last_or_nan stock "Open" = Returns last_open
    /\ last_or_nan stock "High" = Returns last_high
    /\ last_or_nan stock "Low" = Returns last_low
    /\ last_or_nan stock "Close" = Returns last_close
    /\ last_or_nan stock "Volume" = Returns last_volume.
Proof.
  unfold compute_snapshot. intros H.
  do 18 bind_inv H.
  injection H as <-.
  match goal with
  | Ha : safe_ta_function ?f = Returns ?a,
    Hb : safe_ta_function ?f = Returns ?b |- _ =>
      assert (Hsame : a = b) by congruence; subst b
  end.
  repeat eexists; eassumption.
Qed.

Lemma compute_snapshot_keys (ticker : string) (date : Z) (stock : DataFrame)
    (snap : dict) :
  compute_snapshot ticker date stock = Returns (Some snap) ->
  dict_keys snap = snapshot_keys.
Proof.
  intros H. apply compute_snapshot_inv in H.
  destruct H as (lo & lh & ll & lc & lv & a & sd & ui & pd & ob & ad & pv
                 & fi & h3 & vw & mn & mx & Hsnap & _).
  injection Hsnap as ->. reflexivity.
Qed.

Lemma get_indicators_for_date_inv (w w' : W) (ticker : string)
    (date window_days : Z) (snap : dict) :
  get_indicators_for_date w ticker date window_days = (Returns (Some snap), w') ->
  exists stock bars,
    yf_download w ticker (date - window_days) (date + 1) = (Returns stock, w')
    /\ validate_stock date stock = Some bars
    /\ compute_snapshot ticker date bars = Returns (Some snap).
Proof.
  unfold get_indicators_for_date.
  destruct (yf_download w ticker (date - window_days) (date + 1))
    as [downloaded w1] eqn:Hd.
  intros H. injection H as H <-.
  destruct downloaded as [stock | e]; simpl in H.
  - unfold indicators_of_stock in H.
    destruct (validate_stock date stock) as [bars |] eqn:Hv.
    + exists stock, bars. repeat split; try reflexivity; try assumption.
      destruct (compute_snapshot ticker date bars) as [o | e] eqn:Hc;
        simpl in H.
      * congruence.
      * destruct (is_Exception e); discriminate H.
    + discriminate H.
  - destruct (is_Exception e); discriminate H.
Qed.

Lemma get_indicators_for_date_keys (w w' : W) (ticker : string)
    (date window_days : Z) (snap : dict) :
  get_indicators_for_date w ticker date window_days = (Returns (Some snap), w') ->
  dict_keys snap = snapshot_keys.
Proof.
  intros H. apply get_indicators_for_date_inv in H.
  destruct H as (stock & bars & _ & _ & Hc).
  exact (compute_snapshot_keys _ _ _ _ Hc).
Qed.

End BuilderFacts.

Section BuilderClaims.

Context {Val : Values} {Col : Collaborators}.

Lemma snapshot_keys_NoDup : NoDup snapshot_keys.
Proof.
  unfold snapshot_keys.
  repeat (constructor; [simpl; intuition discriminate |]).
  constructor.
Qed.

Lemma validated_not_empty (date : Z) (stock bars : DataFrame) :
  validate_stock date stock = Some bars ->
  df_empty bars = false
  /\ exists last_bar earlier, rev (df_rows bars) = last_bar :: earlier.
Proof.
  intros Hv. destruct (validate_stock_Some _ _ _ Hv) as (_ & _ & Hreq & Hlen).
  split.
  - unfold df_empty. apply orb_false_iff. split; apply Nat.eqb_neq.
    + lia.
    + destruct (required_col_in bars "Open" Hreq) as (j & Hj);
        [simpl; tauto |].
      unfold df_ncols. destruct (get_level_values0 (df_columns bars));
        [discriminate Hj | discriminate].
  - unfold df_len in Hlen. rewrite <- length_rev in Hlen.
    destruct (rev (df_rows bars)) as [| last_bar earlier].
    + simpl in Hlen. lia.
    + exists last_bar, earlier. reflexivity.
Qed.

(** C6.  When the downloaded series has fewer than 20 bars dated up to the
    target date, [get_indicators_for_date] returns [None]; the loop then
    counts the row as a failure and adds nothing to the batch, and a batch
    made of that row leaves the destination as it was. *)
Theorem short_series_is_dropped :
  forall (w w' : W) (ticker : string) (date window_days : Z) (stock : DataFrame),
    yf_download w ticker (date - window_days) (date + 1) = (Returns stock, w') ->
    (df_len (loc_upto stock date) < 20)%nat ->
    get_indicators_for_date w ticker date window_days = (Returns None, w')
    /\ (window_days = 90 ->
        forall (st : run_state) (batch_indicators : list dict) (row : request),
          world st = w -> req_ticker row = ticker -> row_date row = Returns date ->
          process_row st batch_indicators row =
            (Returns batch_indicators,
             mkState (S (processed_records st)) (successful_fetches st)
                     (S (failed_fetches st)) (batch_count st)
                     (output_file st) w')
          /\ process_batch st [row] =
            (Returns tt,
             mkState (S (processed_records st)) (successful_fetches st)
                     (S (failed_fetches st)) (S (batch_count st))
                     (output_file st) w')).
Proof.
  intros w w' ticker date window_days stock Hd Hshort.
  assert (Hbuild : get_indicators_for_date w ticker date window_days
                   = (Returns None, w')).
  { unfold get_indicators_for_date. rewrite Hd. simpl.
    unfold indicators_of_stock.
    rewrite (validate_stock_short _ _ Hshort). reflexivity. }
  split; [exact Hbuild |].
  intros -> st batch_indicators row Hw Ht Hdate.
  assert (Hfetch : fetch_row (world st) row = (Returns None, w')).
  { unfold fetch_row. rewrite Hdate, Hw, Ht. exact Hbuild. }
  split.
  - unfold process_row. rewrite Hfetch. reflexivity.
  - unfold process_batch. simpl. unfold process_row. simpl.
    rewrite Hfetch. reflexivity.
Qed.

(** C8.  A series that passes the checks of lines 70-95 has a last bar; each
    of its open, high, low, close and volume columns is a non-empty series, so
    the [else np.nan] of lines 158-162 is not taken, and in a returned
    snapshot [last_open], [last_high], [last_low], [last_close] and
    [last_volume] are the last bar's cells. *)
Theorem last_bar_fields :
  forall (date : Z) (stock bars : DataFrame),
    validate_stock date stock = Some bars ->
    df_empty bars = false
    /\ exists last_bar earlier,
         rev (df_rows bars) = last_bar :: earlier
         /\ (forall col, In col required_cols ->
               exists s v,
                 getitem bars col = Returns (PSeries s)
                 /\ series_empty s = false
                 /\ bar_cell bars last_bar col = Some v
                 /\ last_or_nan bars col = Returns (PScalar v))
         /\ (forall ticker snap,
               compute_snapshot ticker date bars = Returns (Some snap) ->
               dict_get "last_open" snap
                 = option_map PScalar (bar_cell bars last_bar "Open")
               /\ dict_get "last_high" snap
                 = option_map PScalar (bar_cell bars last_bar "High")
               /\ dict_get "last_low" snap
                 = option_map PScalar (bar_cell bars last_bar "Low")
               /\ dict_get "last_close" snap
                 = option_map PScalar (bar_cell bars last_bar "Close")
               /\ dict_get "last_volume" snap
                 = option_map PScalar (bar_cell bars last_bar "Volume")).
Proof.
  intros date stock bars Hv.
  destruct (validated_not_empty _ _ _ Hv) as (Hne & last_bar & earlier & Hrev).
  destruct (validate_stock_Some _ _ _ Hv) as (_ & _ & Hreq & _).
  split; [exact Hne |].
  exists last_bar, earlier. split; [exact Hrev |].
  assert (Hcol : forall col, In col required_cols ->
            exists j, index_of col (get_level_values0 (df_columns bars)) = Some j
                      /\ last_or_nan bars col
                         = Returns (PScalar (nth j (snd last_bar) nan))).
  { intros col Hin. destruct (required_col_in bars col Hreq Hin) as (j & Hj).
    exists j. split; [exact Hj |].
    apply (last_or_nan_last_bar bars col j last_bar earlier Hj Hrev). }
  split.
  - intros col Hin. destruct (required_col_in bars col Hreq Hin) as (j & Hj).
    destruct (last_or_nan_last_bar bars col j last_bar earlier Hj Hrev)
      as (Hget & Hs & Hlast).
    exists (column_at bars j), (nth j (snd last_bar) nan).
    repeat split; try assumption.
    unfold bar_cell. rewrite Hj. reflexivity.
  - intros ticker snap Hc. apply compute_snapshot_inv in Hc.
    destruct Hc as (lo & lh & ll & lc & lv & a & sd & ui & pd & ob & ad & pv
                    & fi & h3 & vw & mn & mx & Hsnap & _ & Ho & Hh & Hl & Hcl & Hvo).
    injection Hsnap as ->.
    destruct (Hcol "Open") as (jo & Hjo & Hlo); [simpl; tauto |].
    destruct (Hcol "High") as (jh & Hjh & Hlh); [simpl; tauto |].
    destruct (Hcol "Low") as (jl & Hjl & Hll); [simpl; tauto |].
    destruct (Hcol "Close") as (jc & Hjc & Hlc); [simpl; tauto |].
    destruct (Hcol "Volume") as (jv & Hjv & Hlv); [simpl; tauto |].
    unfold bar_cell. rewrite Hjo, Hjh, Hjl, Hjc, Hjv. simpl.
    repeat split; congruence.
Qed.

(** C9.  A returned snapshot comes from the frame [bars] that the download
    gave and lines 70-95 let through; on that one frame [hlc3] and
    [typical_price] are both the normalised
    [(High + Low + Close) / 3]: two different keys of the snapshot holding
    that same value, and both columns of the table written from it. *)
Theorem hlc3_typical_price_twins :
  forall (w w' : W) (ticker : string) (date window_days : Z) (snap : dict),
    get_indicators_for_date w ticker date window_days = (Returns (Some snap), w') ->
    exists stock bars v,
      yf_download w ticker (date - window_days) (date + 1) = (Returns stock, w')
      /\ validate_stock date stock = Some bars
      /\ safe_ta_function (high_low_close_mean bars) = Returns v
      /\ dict_get "hlc3" snap = Some v
      /\ dict_get "typical_price" snap = Some v
      /\ "hlc3" <> "typical_price"
      /\ NoDup (dict_keys snap)
      /\ In "hlc3" (records_columns [snap])
      /\ In "typical_price" (records_columns [snap])
      /\ NoDup (records_columns [snap]).
Proof.
  intros w w' ticker date window_days snap H.
  apply get_indicators_for_date_inv in H.
  destruct H as (stock & bars & Hd & Hv & Hc).
  apply compute_snapshot_inv in Hc.
  destruct Hc as (lo & lh & ll & lc & lv & a & sd & ui & pd & ob & ad & pv
                  & fi & h3 & vw & mn & mx & Hsnap & Hmean & _).
  injection Hsnap as ->.
  exists stock, bars, h3.
  split; [exact Hd |].
  split; [exact Hv |].
  split; [exact Hmean |].
  split; [reflexivity |].
  split; [reflexivity |].
  split; [discriminate |].
  split; [exact snapshot_keys_NoDup |].
  split; [simpl; tauto |].
  split; [simpl; tauto |].
  exact snapshot_keys_NoDup.
Qed.

End BuilderClaims.

Section DriverFacts.

Context {Val : Values} {Col : Collaborators}.

(** *** The builder run over the rows in order *)

Lemma successes_app (rs1 rs2 : list (option dict)) :
  successes (rs1 ++ rs2) = successes rs1 ++ successes rs2.
Proof.
  induction rs1 as [| [d |] rs1 IH]; simpl; [reflexivity | | exact IH].
  rewrite IH. reflexivity.
Qed.

Lemma successes_length (rs : list (option dict)) :
  (length (successes rs) <= length rs)%nat.
Proof.
  induction rs as [| [d |] rs IH]; simpl; lia.
Qed.

Lemma fetch_row_keys (w w' : W) (row : request) (d : dict) :
  fetch_row w row = (Returns (Some d), w') -> dict_keys d = snapshot_keys.
Proof.
  unfold fetch_row. destruct (row_date row) as [date_obj | e].
  - apply get_indicators_for_date_keys.
  - discriminate.
Qed.

Lemma fetch_all_cons (w w' : W) (row : request) (rest : list request)
    (rs : list (option dict)) :
  fetch_all w (row :: rest) = (Returns rs, w') ->
  exists r w1 rs',
    fetch_row w row = (Returns r, w1)
    /\ fetch_all w1 rest = (Returns rs', w')
    /\ rs = r :: rs'.
Proof.
  simpl. destruct (fetch_row w row) as [[r | e] w1]; [| discriminate].
  destruct (fetch_all w1 rest) as [[rs' | e] w2] eqn:Hrest; [| discriminate].
  intros H. injection H as <- <-.
  exists r, w1, rs'. split; [reflexivity |]. split; [exact Hrest | reflexivity].
Qed.

Lemma fetch_all_length (rows : list request) :
  forall (w w' : W) (rs : list (option dict)),
    fetch_all w rows = (Returns rs, w') -> length rs = length rows.
Proof.
  induction rows as [| row rest IH]; intros w w' rs H.
  - simpl in H. injection H as <- _. reflexivity.
  - apply fetch_all_cons in H. destruct H as (r & w1 & rs' & _ & Hrest & ->).
    simpl. f_equal. exact (IH _ _ _ Hrest).
Qed.

Lemma fetch_all_keys (rows : list request) :
  forall (w w' : W) (rs : list (option dict)),
    fetch_all w rows = (Returns rs, w') ->
    Forall (fun d => dict_keys d = snapshot_keys) (successes rs).
Proof.
  induction rows as [| row rest IH]; intros w w' rs H.
  - simpl in H. injection H as <- _. constructor.
  - apply fetch_all_cons in H. destruct H as (r & w1 & rs' & Hrow & Hrest & ->).
    destruct r as [d |]; simpl.
    + constructor; [exact (fetch_row_keys _ _ _ _ Hrow) | exact (IH _ _ _ Hrest)].
    + exact (IH _ _ _ Hrest).
Qed.

Lemma fetch_all_app (l1 l2 : list request) :
  forall (w w' : W) (rs : list (option dict)),
    fetch_all w (l1 ++ l2) = (Returns rs, w') ->
    exists rs1 w1 rs2,
      fetch_all w l1 = (Returns rs1, w1)
      /\ fetch_all w1 l2 = (Returns rs2, w')
      /\ rs = rs1 ++ rs2.
Proof.
  induction l1 as [| row l1 IH]; intros w w' rs H.
  - exists [], w, rs. repeat split. exact H.
  - rewrite <- app_comm_cons in H. apply fetch_all_cons in H.
    destruct H as (r & w1 & rs' & Hrow & Hrest & ->).
    destruct (IH _ _ _ Hrest) as (rs1 & w2 & rs2 & H1 & H2 & ->).
    exists (r :: rs1), w2, rs2. repeat split; [| exact H2].
    simpl. rewrite Hrow, H1. reflexivity.
Qed.

(** *** The inner loop *)

Lemma iterrows_fetch_all (rows : list request) :
  forall (st : run_state) (acc : list dict) (rs : list (option dict)) (w' : W),
    fetch_all (world st) rows = (Returns rs, w') ->
    iterrows st acc rows =
      (Returns (acc ++ successes rs),
       mkState (processed_records st + length rs)
               (successful_fetches st + length (successes rs))
               (failed_fetches st + (length rs - length (successes rs)))
               (batch_count st) (output_file st) w').
Proof.
  induction rows as [| row rest IH]; intros st acc rs w' H.
  - simpl in H. injection H as <- <-. simpl.
    rewrite app_nil_r, !Nat.add_0_r. destruct st; reflexivity.
  - apply fetch_all_cons in H. destruct H as (r & w1 & rs' & Hrow & Hrest & ->).
    pose proof (successes_length rs') as Hle.
    simpl iterrows. unfold process_row. rewrite Hrow.
    destruct r as [d |].
    + rewrite (IH _ _ rs' w'); [| exact Hrest]. simpl.
      rewrite <- app_assoc, !Nat.add_succ_r. reflexivity.
    + rewrite (IH _ _ rs' w'); [| exact Hrest]. simpl successes.
      change (length (None :: rs')) with (S (length rs')).
      rewrite (Nat.sub_succ_l _ _ Hle), !Nat.add_succ_r. reflexivity.
Qed.

(** *** The writer on snapshots *)

Lemma filter_known_keys (acc ks : list string) :
  incl ks acc ->
  filter (fun k => negb (existsb (String.eqb k) acc)) ks = [].
Proof.
  induction ks as [| k ks IH]; intros Hincl; simpl.
  - reflexivity.
  - assert (Hk : existsb (String.eqb k) acc = true).
    { apply existsb_exists. exists k. split.
      - apply Hincl. left. reflexivity.
      - apply String.eqb_refl. }
    rewrite Hk. simpl. apply IH.
    intros x Hx. apply Hincl. right. exact Hx.
Qed.

Lemma union_keys_same (K : list string) (d : dict) :
  dict_keys d = K -> union_keys K d = K.
Proof.
  intros Hd. unfold union_keys. rewrite Hd.
  rewrite filter_known_keys by apply incl_refl.
  apply app_nil_r.
Qed.

Lemma union_keys_first (d : dict) : union_keys [] d = dict_keys d.
Proof.
  unfold union_keys. simpl.
  induction (dict_keys d) as [| k ks IH]; simpl; [reflexivity |].
  f_equal. exact IH.
Qed.

Lemma records_columns_uniform (K : list string) (d : dict) (ds : list dict) :
  Forall (fun x => dict_keys x = K) (d :: ds) ->
  records_columns (d :: ds) = K.
Proof.
  intros Hall. inversion Hall as [| x xs Hd Hds]; subst.
  unfold records_columns. simpl. rewrite union_keys_first.
  clear Hall. induction ds as [| e ds IH]; simpl.
  - reflexivity.
  - inversion Hds as [| y ys He Hes]; subst.
    rewrite (union_keys_same _ e He). apply IH. exact Hes.
Qed.

Lemma batch_rows_snapshots (ds : list dict) :
  Forall (fun x => dict_keys x = snapshot_keys) ds ->
  batch_rows ds = snapshot_rows ds.
Proof.
  intros Hall. destruct ds as [| d ds]; [reflexivity |].
  unfold batch_rows. rewrite (records_columns_uniform snapshot_keys d ds Hall).
  reflexivity.
Qed.

Lemma save_first_batch (ds : list dict) (f : file) :
  Forall (fun x => dict_keys x = snapshot_keys) ds ->
  ds <> [] ->
  save_indicators_incrementally ds f true
  = Some (Header snapshot_keys :: snapshot_rows ds).
Proof.
  intros Hall Hne. destruct ds as [| d ds]; [contradiction |].
  unfold save_indicators_incrementally, to_csv_w.
  fold (batch_rows (d :: ds)).
  rewrite (batch_rows_snapshots _ Hall).
  rewrite (records_columns_uniform snapshot_keys d ds Hall). reflexivity.
Qed.

Lemma save_later_batch (ds : list dict) (f : file) :
  save_indicators_incrementally ds f false = append_rows f (batch_rows ds).
Proof.
  destruct ds as [| d ds]; [reflexivity |].
  unfold save_indicators_incrementally, to_csv_a.
  fold (batch_rows (d :: ds)).
  destruct f; reflexivity.
Qed.

Lemma append_rows_app (f : file) (r1 r2 : list line) :
  append_rows (append_rows f r1) r2 = append_rows f (r1 ++ r2).
Proof.
  destruct r1 as [| a r1]; [reflexivity |].
  destruct r2 as [| b r2].
  - rewrite app_nil_r. reflexivity.
  - simpl. rewrite <- app_assoc. reflexivity.
Qed.

Lemma snapshot_rows_app (l1 l2 : list dict) :
  snapshot_rows (l1 ++ l2) = snapshot_rows l1 ++ snapshot_rows l2.
Proof. apply map_app. Qed.

End DriverFacts.

Section SliceFacts.

(** *** The slices visited by the outer loop *)

Context {A : Type}.

Lemma firstn_add (a b : nat) (l : list A) :
  firstn (a + b) l = firstn a l ++ firstn b (skipn a l).
Proof.
  revert l. induction a as [| a IH]; intros l; simpl.
  - reflexivity.
  - destruct l as [| x l]; simpl.
    + rewrite firstn_nil. reflexivity.
    + rewrite IH. reflexivity.
Qed.

Lemma firstn_min_length (k : nat) (l : list A) :
  firstn (Nat.min k (length l)) l = firstn k l.
Proof.
  destruct (Nat.le_ge_cases k (length l)) as [Hle | Hge].
  - rewrite Nat.min_l by exact Hle. reflexivity.
  - rewrite Nat.min_r by exact Hge.
    rewrite firstn_all, firstn_all2 by exact Hge. reflexivity.
Qed.

(** The slice that starts at [i * batch_size] is the next [batch_size] rows,
    or what is left of the table. *)
Lemma iloc_slice_chunk (df : list A) (batch_size : Z) (i : nat) :
  0 < batch_size ->
  iloc_slice df (0 + Z.of_nat i * batch_size)
             (Z.min (0 + Z.of_nat i * batch_size + batch_size)
                    (Z.of_nat (length df)))
  = firstn (Z.to_nat batch_size) (skipn (i * Z.to_nat batch_size) df).
Proof.
  intros Hpos. unfold iloc_slice.
  assert (Hstart : Z.to_nat (0 + Z.of_nat i * batch_size)
                   = (i * Z.to_nat batch_size)%nat).
  { rewrite Z.add_0_l, Z2Nat.inj_mul, Nat2Z.id by lia. reflexivity. }
  rewrite Hstart.
  rewrite <- (firstn_min_length (Z.to_nat batch_size)).
  f_equal. rewrite length_skipn.
  assert (Hs : 0 + Z.of_nat i * batch_size
               = Z.of_nat (i * Z.to_nat batch_size)).
  { rewrite Nat2Z.inj_mul, Z2Nat.id by lia. lia. }
  rewrite Hs. lia.
Qed.

Lemma concat_chunks (df : list A) (k m : nat) :
  forall i,
    concat (map (fun j => firstn k (skipn (j * k) df)) (seq i m))
    = firstn (m * k) (skipn (i * k) df).
Proof.
  induction m as [| m IH]; intros i.
  - reflexivity.
  - simpl seq. simpl map. simpl concat.
    rewrite IH. simpl Nat.mul.
    rewrite firstn_add, skipn_skipn. reflexivity.
Qed.

Lemma range_count_covers (total batch_size : Z) :
  0 < batch_size -> 0 <= total ->
  total <= Z.of_nat (Z.to_nat ((total - 0 + batch_size - 1) / batch_size)
                     * Z.to_nat batch_size).
Proof.
  intros Hpos Htot.
  pose proof (Z.mul_succ_div_gt (total - 0 + batch_size - 1) batch_size Hpos) as Hgt.
  assert (Hq : 0 <= (total - 0 + batch_size - 1) / batch_size)
    by (apply Z.div_pos; lia).
  rewrite Nat2Z.inj_mul, !Z2Nat.id by lia.
  nia.
Qed.

End SliceFacts.

Section LoopFacts.

Context {Val : Values} {Col : Collaborators}.

(** For a positive [batch_size] the slices partition the table: the first one
    is its first [batch_size] rows and the others, put end to end, are the
    rest. *)
Lemma batch_slices_chunks (df : list request) (batch_size : Z) :
  0 < batch_size ->
  exists batches,
    batch_slices df batch_size = Returns batches
    /\ concat batches = df
    /\ match df with
       | [] => batches = []
       | _ :: _ =>
           exists rest,
             batches = firstn (Z.to_nat batch_size) df :: rest
             /\ concat rest = skipn (Z.to_nat batch_size) df
       end.
Proof.
  intros Hpos.
  pose proof (range_count_covers (Z.of_nat (length df)) batch_size Hpos
                (Nat2Z.is_nonneg _)) as Hcover.
  unfold batch_slices, py_range.
  rewrite (proj2 (Z.eqb_neq batch_size 0)) by lia.
  rewrite (proj2 (Z.ltb_lt 0 batch_size)) by lia.
  simpl bind. rewrite map_map.
  set (k := Z.to_nat batch_size) in *.
  set (m := Z.to_nat ((Z.of_nat (length df) - 0 + batch_size - 1) / batch_size)) in *.
  rewrite (map_ext _ (fun j => firstn k (skipn (j * k) df)))
    by (intros i; apply iloc_slice_chunk; exact Hpos).
  eexists. split; [reflexivity |].
  split.
  - rewrite concat_chunks. simpl skipn.
    apply firstn_all2. lia.
  - destruct df as [| row df'] eqn:Hdf.
    + assert (Hm : m = O).
      { subst m. simpl length. rewrite Z.div_small by lia. reflexivity. }
      rewrite Hm. reflexivity.
    + rewrite <- Hdf in *.
      destruct m as [| m'].
      * exfalso. rewrite Hdf in Hcover. simpl length in Hcover. lia.
      * exists (map (fun j => firstn k (skipn (j * k) df)) (seq 1 m')).
        split; [reflexivity |].
        rewrite concat_chunks. rewrite Nat.mul_1_l.
        apply firstn_all2. rewrite length_skipn. lia.
Qed.

Lemma fetch_all_split (n : nat) :
  forall (rows : list request) (w w' : W) (rs : list (option dict)),
    fetch_all w rows = (Returns rs, w') ->
    exists w1,
      fetch_all w (firstn n rows) = (Returns (firstn n rs), w1)
      /\ fetch_all w1 (skipn n rows) = (Returns (skipn n rs), w').
Proof.
  induction n as [| n IH]; intros rows w w' rs H.
  - exists w. split; [reflexivity | exact H].
  - destruct rows as [| row rest].
    + simpl in H. injection H as <- <-. exists w. split; reflexivity.
    + apply fetch_all_cons in H.
      destruct H as (r & w1 & rs' & Hrow & Hrest & ->).
      destruct (IH _ _ _ _ Hrest) as (w2 & H1 & H2).
      exists w2. split; [| exact H2].
      simpl. rewrite Hrow, H1. reflexivity.
Qed.

Lemma failures_app (rs1 rs2 : list (option dict)) :
  (length (rs1 ++ rs2) - length (successes (rs1 ++ rs2))
   = (length rs1 - length (successes rs1))
     + (length rs2 - length (successes rs2)))%nat.
Proof.
  pose proof (successes_length rs1). pose proof (successes_length rs2).
  rewrite successes_app, !length_app. lia.
Qed.

(** One turn of the outer loop. *)
Lemma process_batch_fetch_all (st : run_state) (batch_df : list request)
    (rs : list (option dict)) (w' : W) :
  fetch_all (world st) batch_df = (Returns rs, w') ->
  process_batch st batch_df =
    (Returns tt,
     mkState (processed_records st + length rs)
             (successful_fetches st + length (successes rs))
             (failed_fetches st + (length rs - length (successes rs)))
             (S (batch_count st))
             (match successes rs with
              | [] => output_file st
              | _ => save_indicators_incrementally (successes rs)
                       (output_file st) (S (batch_count st) =? 1)%nat
              end)
             w').
Proof.
  intros H. unfold process_batch.
  rewrite (iterrows_fetch_all batch_df _ [] rs w') by exact H.
  simpl. destruct (successes rs); reflexivity.
Qed.

(** The batches after the first only append rows. *)
Lemma batches_loop_later (batches : list (list request)) :
  forall (st : run_state) (rs : list (option dict)) (w' : W),
    (1 <= batch_count st)%nat ->
    fetch_all (world st) (concat batches) = (Returns rs, w') ->
    batches_loop st batches =
      (Returns tt,
       mkState (processed_records st + length rs)
               (successful_fetches st + length (successes rs))
               (failed_fetches st + (length rs - length (successes rs)))
               (batch_count st + length batches)
               (append_rows (output_file st) (snapshot_rows (successes rs)))
               w').
Proof.
  induction batches as [| b rest IH]; intros st rs w' Hbc H.
  - simpl in H. injection H as <- <-. simpl.
    rewrite !Nat.add_0_r. destruct st; reflexivity.
  - simpl concat in H. apply fetch_all_app in H.
    destruct H as (rs1 & w1 & rs2 & H1 & H2 & ->).
    simpl batches_loop.
    rewrite (process_batch_fetch_all st b rs1 w1 H1).
    rewrite (IH _ rs2 w'); [| simpl; lia | exact H2].
    simpl.
    assert (Hout : match successes rs1 with
                   | [] => output_file st
                   | _ :: _ => save_indicators_incrementally (successes rs1)
                                 (output_file st) (batch_count st =? 0)%nat
                   end
                   = append_rows (output_file st) (snapshot_rows (successes rs1))).
    { pose proof (fetch_all_keys _ _ _ _ H1) as Hkeys.
      destruct (successes rs1) as [| d ds] eqn:Hs; [reflexivity |].
      rewrite (proj2 (Nat.eqb_neq (batch_count st) 0)) by lia.
      rewrite save_later_batch, (batch_rows_snapshots _ Hkeys). reflexivity. }
    rewrite Hout, append_rows_app, <- snapshot_rows_app, <- successes_app.
    rewrite failures_app, successes_app, !length_app.
    rewrite !Nat.add_assoc, Nat.add_succ_r. reflexivity.
Qed.

End LoopFacts.

Section DriverClaims.

Context {Val : Values} {Col : Collaborators}.

Lemma file_lines_append_rows (f : file) (rows : list line) :
  file_lines (append_rows f rows) = file_lines f ++ rows.
Proof.
  destruct rows; simpl; [rewrite app_nil_r |]; reflexivity.
Qed.

Lemma data_rows_append_rows (f : file) (rows : list line) :
  data_rows (append_rows f rows) = data_rows f ++ data_rows (Some rows).
Proof.
  unfold data_rows. rewrite file_lines_append_rows. apply flat_map_app.
Qed.

Lemma data_rows_snapshot_rows (ds : list dict) :
  data_rows (Some (snapshot_rows ds)) = map (records_row snapshot_keys) ds.
Proof.
  unfold data_rows, snapshot_rows. simpl.
  induction ds as [| d ds IH]; simpl; [reflexivity |].
  rewrite IH. reflexivity.
Qed.

Lemma header_count_append_rows (f : file) (ds : list dict) :
  header_count (append_rows f (snapshot_rows ds)) = header_count f.
Proof.
  unfold header_count. rewrite file_lines_append_rows, filter_app, length_app.
  assert (Hrows : filter is_header (snapshot_rows ds) = []).
  { unfold snapshot_rows. induction ds as [| d ds IH]; simpl; [reflexivity | exact IH]. }
  rewrite Hrows. simpl. apply Nat.add_0_r.
Qed.

(** The state the loop ends in, when no exception escapes: the first batch
    writes the header and its rows if it has any snapshot, and the snapshots
    of the later batches are appended. *)
Lemma enrichment_loop_state (df : list request) (batch_size : Z) (out : file)
    (w w' : W) (rs : list (option dict)) :
  0 < batch_size ->
  fetch_all w df = (Returns rs, w') ->
  exists n,
    enrichment_loop df batch_size out w =
      (Returns tt,
       mkState (length rs) (length (successes rs))
               (length rs - length (successes rs)) n
               (append_rows
                  (match successes (firstn (Z.to_nat batch_size) rs) with
                   | [] => out
                   | _ :: _ =>
                       Some (Header snapshot_keys
                             :: snapshot_rows
                                  (successes (firstn (Z.to_nat batch_size) rs)))
                   end)
                  (snapshot_rows (successes (skipn (Z.to_nat batch_size) rs))))
               w').
Proof.
  intros Hpos H.
  destruct (batch_slices_chunks df batch_size Hpos) as (batches & Hb & _ & Hshape).
  unfold enrichment_loop. rewrite Hb.
  destruct df as [| row df'].
  - subst batches. simpl in H. injection H as <- <-.
    exists O. rewrite firstn_nil, skipn_nil. reflexivity.
  - destruct Hshape as (rest & -> & Hrest).
    destruct (fetch_all_split (Z.to_nat batch_size) _ _ _ _ H) as (w1 & H1 & H2).
    pose proof (fetch_all_keys _ _ _ _ H1) as Hkeys.
    pose proof (firstn_skipn (Z.to_nat batch_size) rs) as Hrs.
    set (rs1 := firstn (Z.to_nat batch_size) rs) in *.
    set (rs2 := skipn (Z.to_nat batch_size) rs) in *.
    clearbody rs1 rs2. subst rs.
    simpl batches_loop.
    rewrite (process_batch_fetch_all _ _ rs1 w1) by exact H1.
    rewrite (batches_loop_later rest _ rs2 w');
      [| simpl; lia | simpl; rewrite Hrest; exact H2].
    exists (1 + length rest)%nat. simpl.
    rewrite failures_app, successes_app, !length_app.
    destruct (successes rs1) as [| d ds] eqn:Hs; [reflexivity |].
    rewrite (save_first_batch (d :: ds) out Hkeys) by discriminate.
    reflexivity.
Qed.

(** The same for the whole function, once the operator has let it run. *)
Lemma enrich_state (df : list request) (out : file) (response : string)
    (batch_size : Z) (w w' : W) (rs : list (option dict)) :
  0 < batch_size ->
  out = None \/ lower response = "y" ->
  fetch_all w df = (Returns rs, w') ->
  exists n,
    snd (enrich_dataset_with_indicators df out response batch_size w) =
       mkState (length rs) (length (successes rs))
               (length rs - length (successes rs)) n
               (append_rows
                  (match successes (firstn (Z.to_nat batch_size) rs) with
                   | [] => None
                   | _ :: _ =>
                       Some (Header snapshot_keys
                             :: snapshot_rows
                                  (successes (firstn (Z.to_nat batch_size) rs)))
                   end)
                  (snapshot_rows (successes (skipn (Z.to_nat batch_size) rs))))
               w'.
Proof.
  intros Hpos Hrun H.
  destruct (enrichment_loop_state df batch_size None w w' rs Hpos H) as (n & Hloop).
  exists n. unfold enrich_dataset_with_indicators.
  assert (Hc : match out with
               | Some _ => negb (String.eqb (lower response) "y")
               | None => false
               end = false).
  { destruct Hrun as [-> | Hy]; [reflexivity |].
    destruct out; [| reflexivity]. rewrite Hy. reflexivity. }
  rewrite Hc, Hloop. simpl.
  destruct (length rs =? 0)%nat; reflexivity.
Qed.

(** The rows of the destination at the end of a run. *)
Lemma enrich_data_rows (df : list request) (out : file) (response : string)
    (batch_size : Z) (w w' : W) (rs : list (option dict)) :
  0 < batch_size ->
  out = None \/ lower response = "y" ->
  fetch_all w df = (Returns rs, w') ->
  data_rows (output_file
               (snd (enrich_dataset_with_indicators df out response batch_size w)))
  = map (records_row snapshot_keys) (successes rs).
Proof.
  intros Hpos Hrun H.
  destruct (enrich_state df out response batch_size w w' rs Hpos Hrun H)
    as (n & ->).
  simpl output_file.
  rewrite data_rows_append_rows, data_rows_snapshot_rows.
  rewrite <- (firstn_skipn (Z.to_nat batch_size) rs) at 3.
  rewrite successes_app, map_app. f_equal.
  destruct (successes (firstn (Z.to_nat batch_size) rs)) as [| d ds];
    [reflexivity |].
  apply (data_rows_snapshot_rows (d :: ds)).
Qed.

(** When the first batch has a snapshot the destination is the header
    followed by all the rows. *)
Lemma enrich_header_then_rows (df : list request) (out : file)
    (response : string) (batch_size : Z) (w w' : W) (rs : list (option dict)) :
  0 < batch_size ->
  out = None \/ lower response = "y" ->
  fetch_all w df = (Returns rs, w') ->
  successes (firstn (Z.to_nat batch_size) rs) <> [] ->
  output_file (snd (enrich_dataset_with_indicators df out response batch_size w))
  = Some (Header snapshot_keys :: snapshot_rows (successes rs)).
Proof.
  intros Hpos Hrun H Hfirst.
  destruct (enrich_state df out response batch_size w w' rs Hpos Hrun H)
    as (n & ->).
  simpl output_file.
  rewrite <- (firstn_skipn (Z.to_nat batch_size) rs) at 3.
  rewrite successes_app, snapshot_rows_app.
  destruct (successes (firstn (Z.to_nat batch_size) rs)) as [| d ds];
    [contradiction |].
  destruct (snapshot_rows (successes (skipn (Z.to_nat batch_size) rs)));
    simpl; [rewrite app_nil_r |]; reflexivity.
Qed.

End DriverClaims.

Section RunClaims.

Context {Val : Values} {Col : Collaborators}.

(** C1.  For a positive [batch_size], in a run the operator lets proceed and
    in which every row's build returns (a snapshot or [None]), the number of
    data rows in the destination is the number of rows whose build gave a
    snapshot, which is also the final [successful_fetches]; every row is
    processed and counted once, as a success or as a failure. *)
Theorem rows_written_equal_successes :
  forall (df : list request) (out : file) (response : string)
         (batch_size : Z) (w w' : W) (rs : list (option dict)),
    0 < batch_size ->
    out = None \/ lower response = "y" ->
    fetch_all w df = (Returns rs, w') ->
    let st := snd (enrich_dataset_with_indicators df out response batch_size w) in
    length (data_rows (output_file st)) = length (successes rs)
    /\ successful_fetches st = length (successes rs)
    /\ processed_records st = length df
    /\ (successful_fetches st + failed_fetches st = length df)%nat.
Proof.
  intros df out response batch_size w w' rs Hpos Hrun H st.
  pose proof (enrich_data_rows df out response batch_size w w' rs Hpos Hrun H)
    as Hrows.
  destruct (enrich_state df out response batch_size w w' rs Hpos Hrun H)
    as (n & Hst).
  pose proof (fetch_all_length _ _ _ _ H) as Hlen.
  pose proof (successes_length rs) as Hle.
  subst st. split.
  - rewrite Hrows. apply length_map.
  - rewrite Hst. simpl. repeat split; lia.
Qed.

(** C10.  Under the same conditions the data rows of the destination are, in
    file order, the rows of the snapshots in the order of the input rows they
    come from; the slices the loop visits, put end to end, are the input
    table. *)
Theorem rows_in_input_order :
  forall (df : list request) (out : file) (response : string)
         (batch_size : Z) (w w' : W) (rs : list (option dict)),
    0 < batch_size ->
    out = None \/ lower response = "y" ->
    fetch_all w df = (Returns rs, w') ->
    data_rows (output_file
                 (snd (enrich_dataset_with_indicators df out response batch_size w)))
    = map (records_row snapshot_keys) (successes rs)
    /\ exists batches,
         batch_slices df batch_size = Returns batches
         /\ concat batches = df.
Proof.
  intros df out response batch_size w w' rs Hpos Hrun H. split.
  - exact (enrich_data_rows df out response batch_size w w' rs Hpos Hrun H).
  - destruct (batch_slices_chunks df batch_size Hpos) as (batches & Hb & Hc & _).
    exists batches. split; assumption.
Qed.

(** C5, as amended.  In a run whose first batch gives no snapshot, no header
    line is ever written, and the destination is not created as long as no
    batch gives a snapshot: it does not exist at the end of a run without any
    snapshot. *)
Theorem first_batch_without_success_no_header :
  forall (df : list request) (out : file) (response : string)
         (batch_size : Z) (w w' : W) (rs : list (option dict)),
    0 < batch_size ->
    out = None \/ lower response = "y" ->
    fetch_all w df = (Returns rs, w') ->
    successes (firstn (Z.to_nat batch_size) rs) = [] ->
    let f := output_file
               (snd (enrich_dataset_with_indicators df out response batch_size w)) in
    header_count f = 0%nat
    /\ (successes rs = [] -> f = None).
Proof.
  intros df out response batch_size w w' rs Hpos Hrun H Hfirst f.
  destruct (enrich_state df out response batch_size w w' rs Hpos Hrun H)
    as (n & Hst).
  subst f. rewrite Hst. simpl output_file. rewrite Hfirst. split.
  - rewrite header_count_append_rows. reflexivity.
  - intros Hnone.
    rewrite <- (firstn_skipn (Z.to_nat batch_size) rs), successes_app, Hfirst
      in Hnone.
    simpl in Hnone. rewrite Hnone. reflexivity.
Qed.

(** *** The writer called batch after batch *)

Lemma append_batches_rows (later : list (list dict)) :
  forall f : file,
    append_batches f later = append_rows f (concat (map batch_rows later)).
Proof.
  unfold append_batches.
  induction later as [| b later IH]; intros f; simpl.
  - reflexivity.
  - rewrite IH, save_later_batch, append_rows_app. reflexivity.
Qed.

Lemma batch_rows_no_header (b : list dict) :
  filter is_header (batch_rows b) = [].
Proof.
  unfold batch_rows. generalize (records_columns b) as cols. intros cols.
  induction b as [| d b IH]; simpl; [reflexivity | exact IH].
Qed.

Lemma batches_rows_no_header (later : list (list dict)) :
  filter is_header (concat (map batch_rows later)) = [].
Proof.
  induction later as [| b later IH]; simpl; [reflexivity |].
  rewrite filter_app, batch_rows_no_header, IH. reflexivity.
Qed.

Lemma batches_rows_length (later : list (list dict)) :
  length (concat (map batch_rows later)) = length (concat later).
Proof.
  induction later as [| b later IH]; simpl; [reflexivity |].
  rewrite !length_app, IH. unfold batch_rows. rewrite length_map. reflexivity.
Qed.

(** C7.  A non-empty flush with [is_first_batch = True] replaces the
    destination, whatever it held, by one header line followed by the rows of
    the batch; the later flushes, with [is_first_batch = False], add their
    rows and no header.  The file then has exactly one header line and its
    number of lines is 1 plus the number of rows of all the batches. *)
Theorem one_header_then_rows :
  forall (f0 : file) (first : list dict) (later : list (list dict)),
    first <> [] ->
    Forall (fun b => b <> []) later ->
    let f1 := save_indicators_incrementally first f0 true in
    let f := append_batches f1 later in
    f1 = Some (Header (records_columns first) :: batch_rows first)
    /\ f = Some (Header (records_columns first)
                 :: batch_rows first ++ concat (map batch_rows later))
    /\ header_count f = 1%nat
    /\ length (file_lines f) = (1 + (length first + length (concat later)))%nat.
Proof.
  intros f0 first later Hne _ f1 f.
  assert (H1 : f1 = Some (Header (records_columns first) :: batch_rows first)).
  { subst f1. destruct first as [| d ds]; [contradiction | reflexivity]. }
  assert (Hf : f = Some (Header (records_columns first)
                         :: batch_rows first ++ concat (map batch_rows later))).
  { subst f. rewrite append_batches_rows, H1.
    destruct (concat (map batch_rows later)); simpl;
      [rewrite app_nil_r |]; reflexivity. }
  split; [exact H1 |]. split; [exact Hf |].
  rewrite Hf. unfold header_count. simpl. split.
  - rewrite filter_app, batch_rows_no_header, batches_rows_no_header.
    reflexivity.
  - rewrite length_app, batches_rows_length. unfold batch_rows.
    rewrite length_map. reflexivity.
Qed.

End RunClaims.

Section UnguardedComputations.

Context {Val : Values} {Col : Collaborators}.

Ltac bind_inv_all :=
  repeat match goal with
         | H : bind _ _ = Returns _ |- _ =>
             apply bind_Returns_inv in H; destruct H as (? & ? & ?)
         end.

Ltac same_results :=
  repeat match goal with
         | H1 : ?t = Returns ?a, H2 : ?t = Returns ?b |- _ =>
             assert (a = b) by congruence; subst b; clear H2
         end.

(** The rolling standard deviation of line 105 and the rolling minimum and
    maximum of lines 151-152 sit directly in the function's [try] block: a
    snapshot is returned only if each of them has returned. *)
Lemma snapshot_needs_unguarded_computations (ticker : string) (date : Z)
    (bars : DataFrame) (snap : dict) :
  compute_snapshot ticker date bars = Returns (Some snap) ->
  exists close volume vc r_std r_min r_max,
    getitem bars "Close" = Returns close
    /\ rolling_std 20 close = Returns r_std
    /\ getitem bars "Volume" = Returns volume
    /\ py_mul volume close = Returns vc
    /\ rolling_min 20 vc = Returns r_min
    /\ rolling_max 20 vc = Returns r_max.
Proof.
  unfold compute_snapshot. intros H.
  bind_inv_all. same_results.
  repeat eexists; eassumption.
Qed.

(** So a failure of the rolling standard deviation leaves the request
    without a snapshot, whatever the other computations do. *)
Lemma std_dev_failure_no_snapshot (w w' : W) (ticker : string)
    (date window_days : Z) (snap : dict) :
  get_indicators_for_date w ticker date window_days = (Returns (Some snap), w') ->
  exists stock bars close r,
    yf_download w ticker (date - window_days) (date + 1) = (Returns stock, w')
    /\ validate_stock date stock = Some bars
    /\ getitem bars "Close" = Returns close
    /\ rolling_std 20 close = Returns r.
Proof.
  intros H. apply get_indicators_for_date_inv in H.
  destruct H as (stock & bars & Hd & Hv & Hc).
  apply snapshot_needs_unguarded_computations in Hc.
  destruct Hc as (close & volume & vc & r & _ & _ & Hclose & Hstd & _).
  exists stock, bars, close, r. repeat split; assumption.
Qed.

End UnguardedComputations.

(** 73 rows in batches of 25: three slices, of 25, 25 and 23 rows. *)
Example slices_of_73_by_25 :
  py_range 0 73 25 = Returns [0; 25; 50]
  /\ fmap_lengths (batch_slices (repeat (mkRequest "A" (TimeObj 0)) 73) 25)
     = Returns [25; 25; 23]%nat.
Proof. split; vm_compute; reflexivity. Qed.

(** * The program on explicit inputs *)

Import Stub.

(** C3, counterexample.  A computation interrupted by [KeyboardInterrupt]
    does not make [safe_ta_function] return: the exception reaches the
    caller, since [except Exception] does not catch it. *)
Lemma interrupt_escapes_safe_ta_function :
  safe_ta_function (Val := cells) (fun _ => Raises KeyboardInterrupt)
    = Raises KeyboardInterrupt
  /\ ~ (exists v, safe_ta_function (Val := cells)
                    (fun _ => Raises KeyboardInterrupt) = Returns v).
Proof.
  split.
  - reflexivity.
  - intros (v & Hv). discriminate Hv.
Qed.

Lemma safe_ta_function_catches_Exception_witness :
  (forall e, (fun _ : unit => @Raises pyobj (Exc "ValueError")) tt = Raises e ->
             is_Exception e = true)
  /\ safe_ta_function (Val := cells) (fun _ => Raises (Exc "ValueError"))
     = Returns (PScalar NaN).
Proof.
  assert (H : forall e,
             (fun _ : unit => @Raises pyobj (Exc "ValueError")) tt = Raises e ->
             is_Exception e = true).
  { intros e He. injection He as <-. reflexivity. }
  split; [exact H |].
  exact (proj2 (safe_ta_function_catches_Exception
                  (fun _ => Raises (Exc "ValueError")) H)
               (Exc "ValueError") eq_refl).
Defined.

Lemma safe_ta_function_normalizes_witness :
  safe_ta_function (Val := cells)
    (fun _ => Returns (PSeries ([Num 1] ++ Num 2 :: [NaN])))
  = Returns (PScalar (Num 2)).
Proof.
  pose proof (safe_ta_function_normalizes (Val := cells)
                (fun _ => Returns (PSeries ([Num 1] ++ Num 2 :: [NaN])))) as H.
  destruct H as (_ & _ & _ & _ & _ & _ & H & _).
  apply (H [Num 1] (Num 2) [NaN]); [reflexivity | reflexivity |].
  intros x Hx. destruct Hx as [Hx | Hx]; [subst x; reflexivity | destruct Hx].
Defined.

(** C4, the program at the failing input.  On a validated 21-bar series, when
    the rolling standard deviation of line 105 raises, the whole request
    gives [None], whereas the same failure inside the guarded Ulcer index
    computation only makes that field [nan]. *)
Theorem unguarded_std_dev_fails_snapshot :
  validate_stock 100 full_stock = Some full_stock
  /\ get_indicators_for_date (Col := collaborators true false) 0%nat "FULL" 100 90
     = (Returns None, 1%nat)
  /\ (exists snap,
        get_indicators_for_date (Col := collaborators false true) 0%nat "FULL" 100 90
        = (Returns (Some snap), 1%nat)
        /\ dict_get "ulcer_index" snap = Some (PScalar NaN)
        /\ dict_get "std_dev" snap = Some (PScalar (Num 205))).
Proof.
  split; [vm_compute; reflexivity |].
  split; [vm_compute; reflexivity |].
  eexists. split; [vm_compute; reflexivity |].
  split; reflexivity.
Qed.

(** C5, counterexample.  Two rows in batches of one: the first batch gives no
    snapshot, the second gives one, and the destination exists at the end,
    holding that row and no header. *)
Lemma later_batch_creates_headerless_file :
  fst (fetch_all (Col := healthy) 0%nat (firstn 1 late_df)) = Returns [None]
  /\ output_file
       (snd (enrich_dataset_with_indicators (Col := healthy) late_df None "" 1 0%nat))
     <> None
  /\ file_lines
       (output_file
          (snd (enrich_dataset_with_indicators (Col := healthy) late_df None "" 1 0%nat)))
     = [Row (records_row snapshot_keys demo_snapshot)].
Proof.
  split; [vm_compute; reflexivity |].
  split; [vm_compute; discriminate | vm_compute; reflexivity].
Qed.

Lemma first_batch_without_success_no_header_witness :
  0 < 1
  /\ fetch_all (Col := healthy) 0%nat late_df = (Returns late_rs, 2%nat)
  /\ successes (firstn (Z.to_nat 1) late_rs) = []
  /\ header_count
       (output_file
          (snd (enrich_dataset_with_indicators (Col := healthy) late_df None "" 1 0%nat)))
     = 0%nat.
Proof.
  assert (H : fetch_all (Col := healthy) 0%nat late_df = (Returns late_rs, 2%nat))
    by (vm_compute; reflexivity).
  split; [reflexivity |]. split; [exact H |]. split; [reflexivity |].
  exact (proj1 (first_batch_without_success_no_header (Col := healthy)
                  late_df None "" 1 0%nat 2%nat late_rs
                  eq_refl (or_introl eq_refl) H eq_refl)).
Defined.

Lemma rows_written_equal_successes_witness :
  0 < 2
  /\ fetch_all (Col := healthy) 0%nat demo_df = (Returns demo_rs, 3%nat)
  /\ length (data_rows
               (output_file
                  (snd (enrich_dataset_with_indicators (Col := healthy)
                          demo_df None "" 2 0%nat))))
     = 2%nat.
Proof.
  assert (H : fetch_all (Col := healthy) 0%nat demo_df = (Returns demo_rs, 3%nat))
    by (vm_compute; reflexivity).
  split; [reflexivity |]. split; [exact H |].
  exact (proj1 (rows_written_equal_successes (Col := healthy)
                  demo_df None "" 2 0%nat 3%nat demo_rs
                  eq_refl (or_introl eq_refl) H)).
Defined.

Lemma rows_in_input_order_witness :
  0 < 2
  /\ fetch_all (Col := healthy) 0%nat demo_df = (Returns demo_rs, 3%nat)
  /\ data_rows
       (output_file
          (snd (enrich_dataset_with_indicators (Col := healthy)
                  demo_df None "" 2 0%nat)))
     = map (records_row snapshot_keys) (successes demo_rs).
Proof.
  assert (H : fetch_all (Col := healthy) 0%nat demo_df = (Returns demo_rs, 3%nat))
    by (vm_compute; reflexivity).
  split; [reflexivity |]. split; [exact H |].
  exact (proj1 (rows_in_input_order (Col := healthy)
                  demo_df None "" 2 0%nat 3%nat demo_rs
                  eq_refl (or_introl eq_refl) H)).
Defined.

Lemma short_series_is_dropped_witness :
  yf_download (Collaborators := healthy) 0%nat "SHORT" (100 - 90) (100 + 1)
    = (Returns short_stock, 1%nat)
  /\ (df_len (loc_upto short_stock 100) < 20)%nat
  /\ get_indicators_for_date (Col := healthy) 0%nat "SHORT" 100 90
     = (Returns None, 1%nat).
Proof.
  assert (Hd : yf_download (Collaborators := healthy) 0%nat "SHORT" (100 - 90) (100 + 1)
               = (Returns short_stock, 1%nat)) by reflexivity.
  assert (Hs : (df_len (loc_upto short_stock 100) < 20)%nat)
    by (vm_compute; lia).
  split; [exact Hd |]. split; [exact Hs |].
  exact (proj1 (short_series_is_dropped (Col := healthy)
                  0%nat 1%nat "SHORT" 100 90 short_stock Hd Hs)).
Defined.

Lemma one_header_then_rows_witness :
  [demo_snapshot] <> []
  /\ Forall (fun b : list dict => b <> []) [[demo_snapshot]]
  /\ header_count
       (append_batches
          (save_indicators_incrementally [demo_snapshot] (Some [Row []]) true)
          [[demo_snapshot]])
     = 1%nat.
Proof.
  assert (H1 : [demo_snapshot] <> []) by discriminate.
  assert (H2 : Forall (fun b : list dict => b <> []) [[demo_snapshot]])
    by (constructor; [discriminate | constructor]).
  split; [exact H1 |]. split; [exact H2 |].
  exact (proj1 (proj2 (proj2 (one_header_then_rows
                  (Some [Row []]) [demo_snapshot] [[demo_snapshot]] H1 H2)))).
Defined.

Lemma last_bar_fields_witness :
  validate_stock 100 full_stock = Some full_stock
  /\ df_empty full_stock = false.
Proof.
  assert (H : validate_stock 100 full_stock = Some full_stock)
    by (vm_compute; reflexivity).
  split; [exact H |].
  exact (proj1 (last_bar_fields (Col := healthy) 100 full_stock full_stock H)).
Defined.

Lemma hlc3_typical_price_twins_witness :
  get_indicators_for_date (Col := healthy) 0%nat "FULL" 100 90
    = (Returns (Some demo_snapshot), 1%nat)
  /\ exists stock bars v,
       yf_download (Collaborators := healthy) 0%nat "FULL" (100 - 90) (100 + 1)
         = (Returns stock, 1%nat)
       /\ validate_stock 100 stock = Some bars
       /\ safe_ta_function (high_low_close_mean (Col := healthy) bars) = Returns v
       /\ dict_get "hlc3" demo_snapshot = Some v
       /\ dict_get "typical_price" demo_snapshot = Some v
       /\ "hlc3" <> "typical_price"
       /\ NoDup (dict_keys demo_snapshot)
       /\ In "hlc3" (records_columns [demo_snapshot])
       /\ In "typical_price" (records_columns [demo_snapshot])
       /\ NoDup (records_columns [demo_snapshot]).
Proof.
  assert (H : get_indicators_for_date (Col := healthy) 0%nat "FULL" 100 90
              = (Returns (Some demo_snapshot), 1%nat))
    by (vm_compute; reflexivity).
  split; [exact H |].
  exact (hlc3_typical_price_twins (Col := healthy)
           0%nat 1%nat "FULL" 100 90 demo_snapshot H).
Defined.

(** * Further properties of the normaliser *)

Section NormalizerMore.

Context {Val : Values}.

Lemma last_valid_split (s : Series) :
  (forall x, In x s -> isna x = true)
  \/ exists pre v post,
       s = pre ++ v :: post
       /\ isna v = false
       /\ (forall x, In x post -> isna x = true).
Proof.
  induction s as [| a s IH].
  - left. intros x [].
  - destruct IH as [Hall | (pre & v & post & -> & Hv & Hpost)].
    + destruct (isna a) eqn:Ha.
      * left. intros x [<- | Hx]; [exact Ha | exact (Hall x Hx)].
      * right. exists [], a, s. repeat split; assumption.
    + right. exists (a :: pre), v, post. repeat split; assumption.
Qed.

(** X1.  On a sequence, [safe_ta_function] returns [nan] exactly when every
    entry is missing; otherwise it returns an entry of the sequence that is
    not missing and after which every entry is missing. *)
Theorem series_result_is_last_valid_entry :
  forall (func : unit -> outcome pyobj) (s : Series),
    func tt = Returns (PSeries s) ->
    ((forall x, In x s -> isna x = true)
     /\ safe_ta_function func = Returns (PScalar nan))
    \/ (exists pre v post,
          s = pre ++ v :: post
          /\ isna v = false
          /\ (forall x, In x post -> isna x = true)
          /\ safe_ta_function func = Returns (PScalar v)).
Proof.
  intros func s Hf.
  rewrite (safe_ta_function_Returns _ _ Hf).
  destruct (last_valid_split s) as [Hall | (pre & v & post & -> & Hv & Hpost)].
  - left. split; [exact Hall |].
    rewrite (dropna_all_missing s Hall). reflexivity.
  - right. exists pre, v, post. repeat split; try assumption.
    rewrite (dropna_most_recent pre post v Hv Hpost). reflexivity.
Qed.

(** X2.  On a non-empty table the result is the one of its first column taken
    as a sequence: the other columns play no part. *)
Theorem table_result_is_first_column_result :
  forall (func : unit -> outcome pyobj) (df : DataFrame),
    func tt = Returns (PDataFrame df) ->
    df_empty df = false ->
    safe_ta_function func
    = safe_ta_function (fun _ => Returns (PSeries (iloc_first_col df))).
Proof.
  intros func df Hf Hne.
  rewrite (safe_ta_function_Returns _ _ Hf), Hne.
  rewrite (safe_ta_function_Returns
             (fun _ => Returns (PSeries (iloc_first_col df))) _ eq_refl).
  reflexivity.
Qed.

(** X3.  What [safe_ta_function] returns is never [None], a sequence or a
    table, and passing a result through it again changes nothing. *)
Theorem safe_ta_function_idempotent :
  forall func : unit -> outcome pyobj,
    safe_ta_function (fun _ => safe_ta_function func) = safe_ta_function func
    /\ (forall r, safe_ta_function func = Returns r ->
          r <> PNone
          /\ (forall s, r <> PSeries s)
          /\ (forall df, r <> PDataFrame df)).
Proof.
  intros func.
  assert (Hshape : forall r, safe_ta_function func = Returns r ->
            r <> PNone /\ (forall s, r <> PSeries s)
            /\ (forall df, r <> PDataFrame df)).
  { intros r Hr. destruct (func tt) as [r0 | e] eqn:Hf.
    - rewrite (safe_ta_function_Returns _ _ Hf) in Hr.
      destruct r0; try destruct (df_empty df);
        injection Hr as <-; repeat split; intros; discriminate.
    - rewrite (safe_ta_function_Raises _ _ Hf) in Hr.
      destruct (is_Exception e); [| discriminate Hr].
      injection Hr as <-. repeat split; intros; discriminate. }
  split; [| exact Hshape].
  destruct (safe_ta_function func) as [r | e] eqn:Hs.
  - destruct (Hshape r eq_refl) as (Hn & Hser & Hdf).
    rewrite (safe_ta_function_Returns (fun _ => Returns r) r eq_refl).
    destruct r; try reflexivity.
    + contradiction.
    + exfalso. exact (Hser s eq_refl).
    + exfalso. exact (Hdf df eq_refl).
  - rewrite (safe_ta_function_Raises (fun _ => Raises e) e eq_refl).
    destruct (func tt) as [r0 | e0] eqn:Hf.
    + rewrite (safe_ta_function_Returns _ _ Hf) in Hs.
      destruct r0; try destruct (df_empty df); discriminate Hs.
    + rewrite (safe_ta_function_Raises _ _ Hf) in Hs.
      destruct (is_Exception e0) eqn:He0; [discriminate Hs |].
      injection Hs as <-. rewrite He0. reflexivity.
Qed.

End NormalizerMore.

(** * Further properties of the snapshot builder *)

Section BuilderMore.

Context {Val : Values} {Col : Collaborators}.



Lemma col_in_spec (c : string) (cols : columns) :
  col_in c cols = true <-> In c (get_level_values0 cols).
Proof.
  unfold col_in. rewrite existsb_exists. split.
  - intros (x & Hx & Heq). apply String.eqb_eq in Heq. subst x. exact Hx.
  - intros Hin. exists c. split; [exact Hin | apply String.eqb_refl].
Qed.

Lemma validate_stock_missing_column (date : Z) (stock : DataFrame) (c : string) :
  In c required_cols ->
  ~ In c (get_level_values0 (df_columns stock)) ->
  validate_stock date stock = None.
Proof.
  intros Hreq Hmiss. unfold validate_stock.
  destruct (df_empty stock); [reflexivity |].
  set (flat := if is_MultiIndex (df_columns stock) then _ else _).
  assert (Hcols : get_level_values0 (df_columns flat)
                  = get_level_values0 (df_columns stock))
    by (subst flat; destruct (is_MultiIndex _); reflexivity).
  assert (Hall : forallb (fun col => col_in col (df_columns flat)) required_cols
                 = false).
  { apply not_true_is_false. intros Hall.
    rewrite forallb_forall in Hall. specialize (Hall c Hreq).
    apply col_in_spec in Hall. rewrite Hcols in Hall. exact (Hmiss Hall). }
  rewrite Hall. reflexivity.
Qed.

Lemma validate_stock_empty (date : Z) (stock : DataFrame) :
  df_empty stock = true -> validate_stock date stock = None.
Proof.
  intros He. unfold validate_stock. rewrite He. reflexivity.
Qed.

(** X5.  [get_indicators_for_date] returns [None], after the one download,
    when the download raises an exception derived from [Exception], when it
    returns an empty frame, when one of Open, High, Low, Close, Volume is not
    among the labels, and when every bar is dated after the target date. *)
Theorem retrieval_failures_give_None :
  forall (w w' : W) (ticker : string) (date window_days : Z),
    (forall e,
       yf_download w ticker (date - window_days) (date + 1) = (Raises e, w') ->
       is_Exception e = true ->
       get_indicators_for_date w ticker date window_days = (Returns None, w'))
    /\ (forall stock,
          yf_download w ticker (date - window_days) (date + 1) = (Returns stock, w') ->
          df_empty stock = true
          \/ (exists c, In c required_cols
                        /\ ~ In c (get_level_values0 (df_columns stock)))
          \/ (forall r, In r (df_rows stock) -> date < fst r) ->
          get_indicators_for_date w ticker date window_days = (Returns None, w')).
Proof.
  intros w w' ticker date window_days. split.
  - intros e Hd He. unfold get_indicators_for_date. rewrite Hd. simpl.
    rewrite He. reflexivity.
  - intros stock Hd Hbad.
    assert (Hv : validate_stock date stock = None).
    { destruct Hbad as [He | [(c & Hreq & Hmiss) | Hlate]].
      - exact (validate_stock_empty _ _ He).
      - exact (validate_stock_missing_column _ _ c Hreq Hmiss).
      - apply validate_stock_short. unfold df_len, loc_upto. simpl.
        assert (Hnil : filter (fun r => fst r <=? date) (df_rows stock) = []).
        { induction (df_rows stock) as [| r rows IH]; [reflexivity |].
          simpl. assert (Hr : date < fst r) by (apply Hlate; left; reflexivity).
          rewrite (proj2 (Z.leb_gt (fst r) date) Hr).
          apply IH. intros x Hx. apply Hlate. right. exact Hx. }
        rewrite Hnil. simpl. lia. }
    unfold get_indicators_for_date. rewrite Hd. simpl.
    unfold indicators_of_stock. rewrite Hv. reflexivity.
Qed.

(** X6.  A snapshot is returned only for a download that returned a frame
    with the five labels and at least 20 bars dated up to the target date;
    the download is asked for the days from [date - window_days] to
    [date + 1]. *)
Theorem snapshot_requires_valid_download :
  forall (w w' : W) (ticker : string) (date window_days : Z) (snap : dict),
    get_indicators_for_date w ticker date window_days = (Returns (Some snap), w') ->
    exists stock,
      yf_download w ticker (date - window_days) (date + 1) = (Returns stock, w')
      /\ (forall c, In c required_cols -> In c (get_level_values0 (df_columns stock)))
      /\ (20 <= length (filter (fun r => (fst r <=? date)%Z) (df_rows stock)))%nat.
Proof.
  intros w w' ticker date window_days snap H.
  apply get_indicators_for_date_inv in H.
  destruct H as (stock & bars & Hd & Hv & _).
  destruct (validate_stock_Some _ _ _ Hv) as (Hrows & Hcols & Hreq & Hlen).
  exists stock. split; [exact Hd |]. split.
  - intros c Hc. rewrite forallb_forall in Hreq.
    rewrite <- Hcols. apply col_in_spec. exact (Hreq c Hc).
  - unfold df_len in Hlen. rewrite Hrows in Hlen. exact Hlen.
Qed.

(** When the two dates are computed as they are on days inside the range,
    the function is [get_indicators_for_date]. *)
Lemma get_indicators_for_date_at_in_range (shift : Z -> Z -> outcome Z) (w : W)
    (ticker : string) (date window_days : Z) :
  shift date (- window_days) = Returns (date - window_days) ->
  shift date 1 = Returns (date + 1) ->
  get_indicators_for_date_at shift w ticker date window_days
  = get_indicators_for_date w ticker date window_days.
Proof.
  intros Hs He. unfold get_indicators_for_date_at, window_bounds.
  rewrite Hs, He. reflexivity.
Qed.

(** X7.  An exception derived from [Exception] leaves
    [get_indicators_for_date] only when the date arithmetic of lines 63-64,
    which sits before the [try], raises it, and then nothing has been
    downloaded; once the two dates are computed, what the function raises is
    an interrupt or an exit. *)
Theorem builder_raises_Exception_only_before_try :
  forall (shift : Z -> Z -> outcome Z) (w w' : W) (ticker : string)
         (date window_days : Z) (e : pyexc),
    get_indicators_for_date_at shift w ticker date window_days = (Raises e, w') ->
    (is_Exception e = true ->
       window_bounds shift date window_days = Raises e /\ w' = w)
    /\ (forall start end_,
          window_bounds shift date window_days = Returns (start, end_) ->
          is_Exception e = false
          /\ w' = snd (yf_download w ticker start end_)).
Proof.
  intros shift w w' ticker date window_days e.
  unfold get_indicators_for_date_at.
  destruct (window_bounds shift date window_days) as [[start end_] | e0].
  - destruct (yf_download w ticker start end_) as [d w1] eqn:Hd.
    intros H. injection H as H <-.
    assert (He : is_Exception e = false).
    { unfold try_except in H.
      destruct (stock <- d ;; indicators_of_stock ticker date stock)
        as [o | e1]; [discriminate H |].
      destruct (is_Exception e1) eqn:He1; [discriminate H |].
      injection H as <-. exact He1. }
    split.
    + intros Ht. rewrite Ht in He. discriminate He.
    + intros s t Hst. injection Hst as <- <-. rewrite Hd.
      split; [exact He | reflexivity].
  - intros H. injection H as <- <-. split.
    + intros _. split; reflexivity.
    + intros s t Hst. discriminate Hst.
Qed.

(** X8.  The snapshot of a row has the twenty keys of the dict literal, in
    that order, and carries the row's ticker and date: its line in the
    destination starts with them and has twenty cells. *)
Theorem snapshot_identifies_its_row :
  forall (w w' : W) (row : request) (snap : dict),
    fetch_row w row = (Returns (Some snap), w') ->
    exists date rest,
      row_date row = Returns date
      /\ dict_keys snap = snapshot_keys
      /\ dict_get "ticker" snap = Some (PStr (req_ticker row))
      /\ dict_get "date" snap = Some (PTimestamp date)
      /\ records_row snapshot_keys snap
         = PStr (req_ticker row) :: PTimestamp date :: rest
      /\ length rest = 18%nat.
Proof.
  intros w w' row snap. unfold fetch_row.
  destruct (row_date row) as [date | e]; [| discriminate].
  intros H. apply get_indicators_for_date_inv in H.
  destruct H as (stock & bars & _ & _ & Hc).
  apply compute_snapshot_inv in Hc.
  destruct Hc as (lo & lh & ll & lc & lv & a & sd & ui & pd & ob & ad & pv
                  & fi & h3 & vw & mn & mx & Hsnap & _).
  injection Hsnap as ->.
  exists date. eexists. split; [reflexivity |].
  split; [reflexivity |]. split; [reflexivity |]. split; [reflexivity |].
  split; reflexivity.
Qed.

End BuilderMore.

(** * Further properties of the driver *)

Section LoopInvariants.

Context {Val : Values} {Col : Collaborators}.

(** What one row does to the state, whatever the collaborators answer. *)
Lemma process_row_facts (st st' : run_state) (acc : list dict) (row : request)
    (r : outcome (list dict)) :
  process_row st acc row = (r, st') ->
  output_file st' = output_file st
  /\ batch_count st' = batch_count st
  /\ processed_records st' = S (processed_records st)
  /\ match r with
     | Returns _ =>
         (successful_fetches st' + failed_fetches st'
          = S (successful_fetches st + failed_fetches st))%nat
     | Raises _ =>
         successful_fetches st' = successful_fetches st
         /\ failed_fetches st' = failed_fetches st
     end.
Proof.
  unfold process_row.
  destruct (fetch_row (world st) row) as [[[d |] | e] w1];
    intros H; injection H as <- <-; simpl; repeat split; lia.
Qed.

Lemma iterrows_facts (rows : list request) :
  forall (st st' : run_state) (acc : list dict) (r : outcome (list dict)),
    iterrows st acc rows = (r, st') ->
    output_file st' = output_file st
    /\ batch_count st' = batch_count st
    /\ (processed_records st' <= processed_records st + length rows)%nat
    /\ match r with
       | Returns _ =>
           (processed_records st' + (successful_fetches st + failed_fetches st)
            = processed_records st
              + (successful_fetches st' + failed_fetches st'))%nat
       | Raises _ =>
           (processed_records st' + (successful_fetches st + failed_fetches st)
            = processed_records st
              + (successful_fetches st' + failed_fetches st') + 1)%nat
       end.
Proof.
  induction rows as [| row rest IH]; intros st st' acc r H.
  - simpl in H. injection H as <- <-. repeat split; lia.
  - simpl in H.
    destruct (process_row st acc row) as [[acc1 | e] st1] eqn:Hrow.
    + destruct (process_row_facts _ _ _ _ _ Hrow) as (Ho & Hb & Hp & Hc).
      destruct (IH _ _ _ _ H) as (Ho' & Hb' & Hp' & Hc').
      simpl length. repeat split; try congruence; try lia.
      destruct r; lia.
    + injection H as <- <-.
      destruct (process_row_facts _ _ _ _ _ Hrow) as (Ho & Hb & Hp & Hs & Hf).
      simpl length. repeat split; try assumption; lia.
Qed.

(** One batch: the destination is left alone or extended, by a header and
    rows if this is the first batch, by rows otherwise. *)
Lemma process_batch_facts (st st' : run_state) (batch_df : list request)
    (r : outcome unit) :
  process_batch st batch_df = (r, st') ->
  batch_count st' = S (batch_count st)
  /\ (processed_records st' <= processed_records st + length batch_df)%nat
  /\ match r with
     | Returns _ =>
         (processed_records st' + (successful_fetches st + failed_fetches st)
          = processed_records st
            + (successful_fetches st' + failed_fetches st'))%nat
     | Raises _ =>
         (processed_records st' + (successful_fetches st + failed_fetches st)
          = processed_records st
            + (successful_fetches st' + failed_fetches st') + 1)%nat
     end
  /\ (output_file st' = output_file st
      \/ (exists rows,
            filter is_header rows = []
            /\ ((batch_count st = O
                 /\ exists cols, output_file st' = Some (Header cols :: rows))
                \/ (batch_count st <> O
                    /\ output_file st'
                       = Some (file_lines (output_file st) ++ rows))))).
Proof.
  unfold process_batch.
  destruct (iterrows _ [] batch_df) as [[batch | e] st2] eqn:Hit;
    destruct (iterrows_facts _ _ _ _ _ Hit) as (Ho & Hb & Hp & Hc);
    simpl in Ho, Hb, Hp, Hc.
  - destruct batch as [| d ds]; intros H; injection H as <- <-; simpl.
    + repeat split; try assumption. left. exact Ho.
    + repeat split; try assumption.
      right. exists (batch_rows (d :: ds)).
      split; [apply batch_rows_no_header |].
      rewrite Hb, Ho. destruct (batch_count st) as [| n].
      * left. split; [reflexivity |]. eexists. reflexivity.
      * right. split; [discriminate |].
        simpl. unfold to_csv_a. fold (batch_rows (d :: ds)).
        destruct (output_file st); reflexivity.
  - intros H. injection H as <- <-.
    repeat split; try assumption. left. exact Ho.
Qed.

Lemma batches_loop_app (l1 l2 : list (list request)) :
  forall st : run_state,
    batches_loop st (l1 ++ l2)
    = match batches_loop st l1 with
      | (Raises e, st') => (Raises e, st')
      | (Returns _, st') => batches_loop st' l2
      end.
Proof.
  induction l1 as [| b l1 IH]; intros st; simpl.
  - reflexivity.
  - destruct (process_batch st b) as [[u | e] st1]; [apply IH | reflexivity].
Qed.

Lemma batches_loop_facts (batches : list (list request)) :
  forall (st st' : run_state) (r : outcome unit),
    (batch_count st = O -> output_file st = None) ->
    batches_loop st batches = (r, st') ->
    (batch_count st' = O -> output_file st' = None)
    /\ (processed_records st' <= processed_records st + length (concat batches))%nat
    /\ match r with
       | Returns _ =>
           (processed_records st' + (successful_fetches st + failed_fetches st)
            = processed_records st
              + (successful_fetches st' + failed_fetches st'))%nat
       | Raises _ =>
           (processed_records st' + (successful_fetches st + failed_fetches st)
            = processed_records st
              + (successful_fetches st' + failed_fetches st') + 1)%nat
       end
    /\ exists added,
         file_lines (output_file st') = file_lines (output_file st) ++ added
         /\ (batch_count st <> O -> filter is_header added = []).
Proof.
  induction batches as [| b rest IH]; intros st st' r Hinv H.
  - simpl in H. injection H as <- <-. simpl.
    repeat split; try assumption; try lia.
    exists []. split; [symmetry; apply app_nil_r | reflexivity].
  - simpl in H.
    destruct (process_batch st b) as [[u | e] st1] eqn:Hb.
    + destruct (process_batch_facts _ _ _ _ Hb) as (Hbc & Hp & Hc & Hout).
      assert (Hinv1 : batch_count st1 = O -> output_file st1 = None)
        by (rewrite Hbc; discriminate).
      destruct (IH _ _ _ Hinv1 H) as (Hinv' & Hp' & Hc' & added & Hadd & Hhd).
      simpl concat. rewrite length_app.
      split; [exact Hinv' |]. split; [lia |].
      split; [destruct r; lia |].
      assert (Hhd' : filter is_header added = [])
        by (apply Hhd; rewrite Hbc; discriminate).
      destruct Hout as [Hsame | (rows & Hrows & [(Hz & cols & Hf) | (Hnz & Hf)])].
      * exists added. rewrite Hadd, Hsame. split; [reflexivity |].
        intros _. exact Hhd'.
      * exists (Header cols :: rows ++ added).
        rewrite Hadd, Hf, (Hinv Hz). simpl. split; [reflexivity |].
        intros Hne. contradiction.
      * exists (rows ++ added).
        rewrite Hadd, Hf. simpl. rewrite <- app_assoc. split; [reflexivity |].
        intros _. rewrite filter_app, Hrows, Hhd'. reflexivity.
    + injection H as <- <-.
      destruct (process_batch_facts _ _ _ _ Hb) as (Hbc & Hp & Hc & Hout).
      simpl concat. rewrite length_app.
      split; [rewrite Hbc; discriminate |]. split; [lia |].
      split; [exact Hc |].
      destruct Hout as [Hsame | (rows & Hrows & [(Hz & cols & Hf) | (Hnz & Hf)])].
      * exists []. rewrite Hsame. split; [symmetry; apply app_nil_r | reflexivity].
      * exists (Header cols :: rows). rewrite Hf, (Hinv Hz). simpl.
        split; [reflexivity |]. intros Hne. contradiction.
      * exists rows. rewrite Hf. split; [reflexivity |]. intros _. exact Hrows.
Qed.

End LoopInvariants.

Section DegenerateRuns.

Context {Val : Values} {Col : Collaborators}.

Lemma batch_slices_zero (df : list request) :
  batch_slices df 0 = Raises (Exc "ValueError").
Proof. reflexivity. Qed.

Lemma batch_slices_negative (df : list request) (batch_size : Z) :
  batch_size < 0 -> batch_slices df batch_size = Returns [].
Proof.
  intros Hneg. unfold batch_slices, py_range.
  rewrite (proj2 (Z.eqb_neq batch_size 0)) by lia.
  rewrite (proj2 (Z.ltb_ge 0 batch_size)) by lia.
  assert (Hn : (0 - Z.of_nat (length df) - batch_size - 1) / - batch_size <= 0).
  { apply Z.lt_succ_r. apply Z.div_lt_upper_bound; lia. }
  destruct (Z.to_nat ((0 - Z.of_nat (length df) - batch_size - 1) / - batch_size))
    eqn:Hz; [reflexivity | lia].
Qed.

Lemma not_cancelled (out : file) (response : string) :
  out = None \/ lower response = "y" ->
  match out with
  | Some _ => negb (String.eqb (lower response) "y")
  | None => false
  end = false.
Proof.
  intros [-> | Hy]; [reflexivity |].
  destruct out; [| reflexivity]. rewrite Hy. reflexivity.
Qed.

(** X9.  In a run the operator lets proceed, a batch size of 0 raises
    ValueError, and an empty table or a negative batch size raises
    ZeroDivisionError at the final summary; in both cases nothing is
    downloaded, no row is processed and the destination no longer exists,
    even if it did before. *)
Theorem degenerate_runs_raise :
  forall (df : list request) (out : file) (response : string)
         (batch_size : Z) (w : W),
    out = None \/ lower response = "y" ->
    (batch_size = 0 ->
       enrich_dataset_with_indicators df out response batch_size w
       = (Raises (Exc "ValueError"), mkState 0 0 0 0 None w))
    /\ (batch_size < 0 \/ (df = [] /\ batch_size <> 0) ->
          enrich_dataset_with_indicators df out response batch_size w
          = (Raises (Exc "ZeroDivisionError"), mkState 0 0 0 0 None w)).
Proof.
  intros df out response batch_size w Hrun.
  unfold enrich_dataset_with_indicators.
  rewrite (not_cancelled out response Hrun).
  unfold enrichment_loop. split.
  - intros ->. rewrite batch_slices_zero. reflexivity.
  - intros [Hneg | (-> & Hnz)].
    + rewrite (batch_slices_negative df batch_size Hneg). reflexivity.
    + destruct (Z.lt_total batch_size 0) as [Hneg | [Hz | Hpos]].
      * rewrite (batch_slices_negative [] batch_size Hneg). reflexivity.
      * contradiction.
      * destruct (batch_slices_chunks [] batch_size Hpos) as (b & -> & _ & ->).
        reflexivity.
Qed.

Lemma ascii_lower_y (c : ascii) :
  ascii_lower c = "y"%char <-> c = "y"%char \/ c = "Y"%char.
Proof.
  destruct c as [[] [] [] [] [] [] [] []]; vm_compute; split;
    intros H; try discriminate H; try (destruct H as [H | H]; discriminate H);
    tauto.
Qed.

Lemma lower_empty (s : string) : lower s = "" <-> s = "".
Proof.
  destruct s; simpl; split; intros H; try reflexivity; discriminate H.
Qed.

Lemma lower_is_y (s : string) : lower s = "y" <-> s = "y" \/ s = "Y".
Proof.
  destruct s as [| c s]; simpl.
  - split; [discriminate | intros [H | H]; discriminate H].
  - split.
    + intros H. injection H as Hc Hs.
      apply (proj1 (lower_empty s)) in Hs. subst s.
      apply (proj1 (ascii_lower_y c)) in Hc. destruct Hc as [-> | ->]; tauto.
    + intros [H | H]; injection H as -> ->; reflexivity.
Qed.

(** X10.  When the destination exists, the run goes on exactly when the
    operator answers y or Y, and then it is the run that starts without a
    destination; on any other answer nothing is downloaded and the
    destination keeps its content. *)
Theorem overwrite_prompt :
  forall (df : list request) (old : list line) (response : string)
         (batch_size : Z) (w : W),
    (response = "y" \/ response = "Y" ->
       enrich_dataset_with_indicators df (Some old) response batch_size w
       = enrich_dataset_with_indicators df None response batch_size w)
    /\ (response <> "y" -> response <> "Y" ->
          enrich_dataset_with_indicators df (Some old) response batch_size w
          = (Returns tt, mkState 0 0 0 0 (Some old) w)).
Proof.
  intros df old response batch_size w. unfold enrich_dataset_with_indicators.
  split.
  - intros Hy. apply (proj2 (lower_is_y response)) in Hy. rewrite Hy. reflexivity.
  - intros H1 H2.
    assert (Hn : String.eqb (lower response) "y" = false).
    { apply String.eqb_neq. intros Hy.
      apply (proj1 (lower_is_y response)) in Hy. tauto. }
    rewrite Hn. reflexivity.
Qed.

End DegenerateRuns.

Section BatchShape.

Context {Val : Values} {Col : Collaborators}.

(** X11.  For a positive [batch_size] the loop visits [ceil(n / batch_size)]
    slices of a table of [n] rows; none is empty, none has more than
    [batch_size] rows, and all but the last have exactly [batch_size]. *)
Theorem batch_slices_bounds :
  forall (df : list request) (batch_size : Z),
    0 < batch_size ->
    exists batches,
      batch_slices df batch_size = Returns batches
      /\ Z.of_nat (length batches) = ceil_div (Z.of_nat (length df)) batch_size
      /\ Forall (fun b => (1 <= length b <= Z.to_nat batch_size)%nat) batches
      /\ (forall i, (S i < length batches)%nat ->
            length (nth i batches []) = Z.to_nat batch_size).
Proof.
  intros df batch_size Hpos.
  unfold batch_slices, py_range.
  rewrite (proj2 (Z.eqb_neq batch_size 0)) by lia.
  rewrite (proj2 (Z.ltb_lt 0 batch_size)) by lia.
  simpl bind. rewrite map_map.
  set (total := Z.of_nat (length df)).
  set (k := Z.to_nat batch_size).
  set (q := (total - 0 + batch_size - 1) / batch_size).
  rewrite (map_ext _ (fun j => firstn k (skipn (j * k) df)))
    by (intros i; apply iloc_slice_chunk; exact Hpos).
  assert (Hq0 : 0 <= q) by (apply Z.div_pos; subst total; lia).
  assert (Hqle : batch_size * q <= total - 0 + batch_size - 1)
    by (apply Z.mul_div_le; exact Hpos).
  assert (Hstart : forall j, (j < Z.to_nat q)%nat -> (j * k < length df)%nat).
  { intros j Hj. apply Nat2Z.inj_lt. rewrite Nat2Z.inj_mul.
    subst k. rewrite Z2Nat.id by lia. fold total. nia. }
  eexists. split; [reflexivity |].
  split.
  - rewrite length_map, length_seq, Z2Nat.id by exact Hq0.
    unfold ceil_div. subst q. f_equal. lia.
  - split.
    + apply Forall_forall. intros b Hb.
      apply in_map_iff in Hb. destruct Hb as (j & <- & Hj).
      apply in_seq in Hj.
      rewrite length_firstn, length_skipn.
      pose proof (Hstart j ltac:(lia)). lia.
    + intros i Hi. rewrite length_map, length_seq in Hi.
      rewrite (nth_indep _ [] (firstn k (skipn (0 * k) df)))
        by (rewrite length_map, length_seq; lia).
      rewrite (map_nth (fun j => firstn k (skipn (j * k) df)) (seq 0 (Z.to_nat q)) O i).
      rewrite seq_nth by lia. simpl Nat.add.
      rewrite length_firstn, length_skipn.
      pose proof (Hstart (S i) Hi) as Hnext. simpl in Hnext. lia.
Qed.

(** X12.  Whatever the collaborators do and however the run ends,
    [processed_records] never exceeds the number of rows and is
    [successful_fetches + failed_fetches] or one more than that; the two are
    equal whenever the function returns. *)
Theorem counters_stay_consistent :
  forall (df : list request) (out : file) (response : string)
         (batch_size : Z) (w : W),
    let r := fst (enrich_dataset_with_indicators df out response batch_size w) in
    let st := snd (enrich_dataset_with_indicators df out response batch_size w) in
    (processed_records st <= length df)%nat
    /\ (successful_fetches st + failed_fetches st <= processed_records st
        <= successful_fetches st + failed_fetches st + 1)%nat
    /\ (r = Returns tt ->
        processed_records st = (successful_fetches st + failed_fetches st)%nat).
Proof.
  intros df out response batch_size w.
  unfold enrich_dataset_with_indicators.
  destruct (match out with Some _ => _ | None => false end).
  - simpl. repeat split; lia.
  - unfold enrichment_loop.
    destruct (batch_slices df batch_size) as [batches | e] eqn:Hb.
    + assert (Hlen : (length (concat batches) <= length df)%nat).
      { destruct (Z.lt_total batch_size 0) as [Hneg | [Hz | Hpos]].
        - rewrite (batch_slices_negative df batch_size Hneg) in Hb.
          injection Hb as <-. simpl. lia.
        - subst batch_size. rewrite batch_slices_zero in Hb. discriminate Hb.
        - destruct (batch_slices_chunks df batch_size Hpos) as (b & Hb' & Hc & _).
          rewrite Hb' in Hb. injection Hb as <-. rewrite Hc. lia. }
      destruct (batches_loop (mkState 0 0 0 0 None w) batches)
        as [[u | e] st] eqn:Hloop;
        destruct (batches_loop_facts batches (mkState 0 0 0 0 None w) _ _
                    (fun _ => eq_refl) Hloop)
          as (_ & Hp & Hc & _); simpl in Hp, Hc.
      * destruct (processed_records st =? 0)%nat eqn:Hz; simpl.
        -- apply Nat.eqb_eq in Hz.
           repeat split; try lia; try (intros Hr; discriminate Hr).
        -- repeat split; try lia.
      * simpl. repeat split; try lia; try (intros Hr; discriminate Hr).
    + simpl. repeat split; try lia; try (intros Hr; discriminate Hr).
Qed.

Lemma batches_loop_batch_count (batches : list (list request)) :
  forall (st st' : run_state) (r : outcome unit),
    batches_loop st batches = (r, st') ->
    batches <> [] -> batch_count st' <> O.
Proof.
  induction batches as [| b rest IH]; intros st st' r H Hne;
    [contradiction |].
  simpl in H.
  destruct (process_batch st b) as [[u | e] st1] eqn:Hb;
    destruct (process_batch_facts _ _ _ _ Hb) as (Hbc & _).
  - destruct rest as [| b' rest'].
    + simpl in H. injection H as _ <-. rewrite Hbc. discriminate.
    + apply (IH _ _ _ H). discriminate.
  - injection H as _ <-. rewrite Hbc. discriminate.
Qed.

(** X13.  Lines once written stay: whatever happens in the batches that
    follow, the destination after them begins with the destination as the
    earlier batches left it, and what follows a first batch contains no
    header. *)
Theorem flushed_lines_are_kept :
  forall (w : W) (done more : list (list request)),
    let st0 := mkState 0 0 0 0 None w in
    exists added,
      file_lines (output_file (snd (batches_loop st0 (done ++ more))))
      = file_lines (output_file (snd (batches_loop st0 done))) ++ added
      /\ (done <> [] -> filter is_header added = []).
Proof.
  intros w done more st0.
  rewrite batches_loop_app.
  destruct (batches_loop st0 done) as [[u | e] st1] eqn:Hdone.
  - destruct (batches_loop_facts done (mkState 0 0 0 0 None w) _ _
                (fun _ => eq_refl) Hdone)
      as (Hinv1 & _).
    destruct (batches_loop st1 more) as [r st2] eqn:Hmore.
    destruct (batches_loop_facts _ _ _ _ Hinv1 Hmore)
      as (_ & _ & _ & added & Hadd & Hhd).
    exists added. simpl. split; [exact Hadd |].
    intros Hne. apply Hhd.
    exact (batches_loop_batch_count _ _ _ _ Hdone Hne).
  - exists []. simpl. split; [symmetry; apply app_nil_r | reflexivity].
Qed.

End BatchShape.

Section InterruptedRuns.

Context {Val : Values} {Col : Collaborators}.

Lemma iterrows_app (l1 l2 : list request) :
  forall (st : run_state) (acc : list dict),
    iterrows st acc (l1 ++ l2)
    = match iterrows st acc l1 with
      | (Raises e, st') => (Raises e, st')
      | (Returns acc', st') => iterrows st' acc' l2
      end.
Proof.
  induction l1 as [| row l1 IH]; intros st acc; simpl.
  - reflexivity.
  - destruct (process_row st acc row) as [[acc1 | e] st1];
      [apply IH | reflexivity].
Qed.

(** A batch in which a row lets an exception escape: the rows before it are
    counted, the destination is as it was. *)
Lemma process_batch_abort (st : run_state) (before after : list request)
    (row : request) (rs : list (option dict)) (w2 w3 : W) (e : pyexc) :
  fetch_all (world st) before = (Returns rs, w2) ->
  fetch_row w2 row = (Raises e, w3) ->
  process_batch st (before ++ row :: after) =
    (Raises e,
     mkState (S (processed_records st + length rs))
             (successful_fetches st + length (successes rs))
             (failed_fetches st + (length rs - length (successes rs)))
             (S (batch_count st)) (output_file st) w3).
Proof.
  intros Hbefore Hrow. unfold process_batch.
  rewrite iterrows_app.
  rewrite (iterrows_fetch_all before _ [] rs w2) by exact Hbefore.
  simpl. unfold process_row. simpl. rewrite Hrow. reflexivity.
Qed.

(** The loop over batches whose rows all return, from a state in which no
    batch has been counted unless the destination is as the loop left it. *)
Lemma batches_loop_returns (batches : list (list request)) (st : run_state)
    (rs : list (option dict)) (w' : W) :
  (batch_count st = O -> output_file st = None) ->
  fetch_all (world st) (concat batches) = (Returns rs, w') ->
  exists f',
    batches_loop st batches =
      (Returns tt,
       mkState (processed_records st + length rs)
               (successful_fetches st + length (successes rs))
               (failed_fetches st + (length rs - length (successes rs)))
               (batch_count st + length batches) f' w')
    /\ data_rows f'
       = data_rows (output_file st)
         ++ map (records_row snapshot_keys) (successes rs).
Proof.
  intros Hinv H.
  destruct (batch_count st) as [| n] eqn:Hbc.
  - destruct batches as [| b rest].
    + simpl in H. injection H as <- <-. exists (output_file st).
      simpl. rewrite !Nat.add_0_r, app_nil_r, <- Hbc.
      split; [destruct st; reflexivity | reflexivity].
    + simpl concat in H. apply fetch_all_app in H.
      destruct H as (rs1 & w1 & rs2 & H1 & H2 & ->).
      pose proof (fetch_all_keys _ _ _ _ H1) as Hkeys.
      simpl batches_loop.
      rewrite (process_batch_fetch_all st b rs1 w1 H1).
      rewrite (batches_loop_later rest _ rs2 w');
        [| simpl; lia | exact H2].
      eexists. split.
      * simpl. rewrite failures_app, successes_app, !length_app, Hbc.
        rewrite !Nat.add_assoc. reflexivity.
      * rewrite data_rows_append_rows, data_rows_snapshot_rows.
        rewrite successes_app, map_app, (Hinv eq_refl). simpl data_rows at 2.
        simpl app. f_equal.
        destruct (successes rs1) as [| d ds] eqn:Hs; [reflexivity |].
        change (0 =? 0)%nat with true.
        rewrite (save_first_batch (d :: ds) None Hkeys) by discriminate.
        apply (data_rows_snapshot_rows (d :: ds)).
  - rewrite <- Hbc.
    rewrite (batches_loop_later batches st rs w'); [| lia | exact H].
    eexists. split; [reflexivity |].
    rewrite data_rows_append_rows, data_rows_snapshot_rows. reflexivity.
Qed.

(** A run in which a row lets an exception escape: the state it ends in. *)
Lemma run_with_escaping_exception (df : list request) (out : file)
    (response : string) (batch_size : Z) (w w1 w2 w3 : W)
    (done rest : list (list request)) (before after : list request)
    (row : request) (rs rs_cur : list (option dict)) (e : pyexc) :
  out = None \/ lower response = "y" ->
  batch_slices df batch_size = Returns (done ++ (before ++ row :: after) :: rest) ->
  fetch_all w (concat done) = (Returns rs, w1) ->
  fetch_all w1 before = (Returns rs_cur, w2) ->
  fetch_row w2 row = (Raises e, w3) ->
  exists f',
    enrich_dataset_with_indicators df out response batch_size w
    = (Raises e,
       mkState (S (length rs + length rs_cur))
               (length (successes rs) + length (successes rs_cur))
               (length rs - length (successes rs)
                + (length rs_cur - length (successes rs_cur)))
               (S (length done)) f' w3)
    /\ data_rows f' = map (records_row snapshot_keys) (successes rs).
Proof.
  intros Hrun Hb Hdone Hcur Hrow.
  unfold enrich_dataset_with_indicators.
  rewrite (not_cancelled out response Hrun).
  unfold enrichment_loop. rewrite Hb.
  rewrite batches_loop_app.
  destruct (batches_loop_returns done (mkState 0 0 0 0 None w) rs w1
              (fun _ => eq_refl) Hdone) as (f' & Hloop & Hrows).
  simpl in Hloop, Hrows. rewrite Hloop. simpl batches_loop.
  rewrite (process_batch_abort _ before after row rs_cur w2 w3 e);
    [| exact Hcur | exact Hrow].
  exists f'. split; [reflexivity | exact Hrows].
Qed.

(** X14.  When an exception escapes while a row of some batch is processed,
    the function raises it; the destination then holds the rows of the
    snapshots of the batches completed before, and nothing of the batch under
    way, whose snapshots are counted in [successful_fetches] but lost. *)
Theorem escaping_exception_loses_current_batch :
  forall (df : list request) (out : file) (response : string)
         (batch_size : Z) (w w1 w2 w3 : W)
         (done rest : list (list request)) (before after : list request)
         (row : request) (rs rs_cur : list (option dict)) (e : pyexc),
    out = None \/ lower response = "y" ->
    batch_slices df batch_size = Returns (done ++ (before ++ row :: after) :: rest) ->
    fetch_all w (concat done) = (Returns rs, w1) ->
    fetch_all w1 before = (Returns rs_cur, w2) ->
    fetch_row w2 row = (Raises e, w3) ->
    exists st,
      enrich_dataset_with_indicators df out response batch_size w = (Raises e, st)
      /\ data_rows (output_file st)
         = map (records_row snapshot_keys) (successes rs)
      /\ successful_fetches st
         = (length (successes rs) + length (successes rs_cur))%nat
      /\ processed_records st = S (length rs + length rs_cur)
      /\ batch_count st = S (length done)
      /\ world st = w3.
Proof.
  intros df out response batch_size w w1 w2 w3 done rest before after row
         rs rs_cur e Hrun Hb Hdone Hcur Hrow.
  destruct (run_with_escaping_exception df out response batch_size
              w w1 w2 w3 done rest before after row rs rs_cur e
              Hrun Hb Hdone Hcur Hrow) as (f' & Hst & Hrows).
  eexists. split; [exact Hst |].
  simpl. split; [exact Hrows |].
  repeat split; reflexivity.
Qed.

End InterruptedRuns.

(** * The read-back and [main] *)

Section EntryFacts.

Context {Val : Values} {Col : Collaborators}.

Variable csv_text : pyobj -> string.

(** A run over a non-empty table in which every row returns ends normally. *)
Lemma enrich_completes (df : list request) (out : file) (response : string)
    (batch_size : Z) (w w' : W) (rs : list (option dict)) :
  0 < batch_size ->
  out = None \/ lower response = "y" ->
  fetch_all w df = (Returns rs, w') ->
  df <> [] ->
  fst (enrich_dataset_with_indicators df out response batch_size w) = Returns tt.
Proof.
  intros Hpos Hrun H Hne.
  destruct (enrichment_loop_state df batch_size None w w' rs Hpos H) as (n & Hloop).
  unfold enrich_dataset_with_indicators.
  rewrite (not_cancelled out response Hrun), Hloop. simpl.
  pose proof (fetch_all_length _ _ _ _ H) as Hlen.
  destruct rs as [| r rs']; [| reflexivity].
  destruct df; [contradiction | discriminate Hlen].
Qed.

Lemma enrich_output (df : list request) (out : file) (response : string)
    (batch_size : Z) (w w' : W) (rs : list (option dict)) :
  0 < batch_size ->
  out = None \/ lower response = "y" ->
  fetch_all w df = (Returns rs, w') ->
  output_file (snd (enrich_dataset_with_indicators df out response batch_size w))
  = append_rows
      (match successes (firstn (Z.to_nat batch_size) rs) with
       | [] => None
       | _ :: _ =>
           Some (Header snapshot_keys
                 :: snapshot_rows (successes (firstn (Z.to_nat batch_size) rs)))
       end)
      (snapshot_rows (successes (skipn (Z.to_nat batch_size) rs)))
  /\ world (snd (enrich_dataset_with_indicators df out response batch_size w)) = w'.
Proof.
  intros Hpos Hrun H.
  destruct (enrich_state df out response batch_size w w' rs Hpos Hrun H)
    as (n & ->).
  split; reflexivity.
Qed.

Lemma read_back_with_header (rows : list line) :
  read_back csv_text (Some (Header snapshot_keys :: rows)) = Returns tt.
Proof. reflexivity. Qed.

(** X15.  At the end of a run over a non-empty table in which every row
    returns, the read-back of lines 317-323 passes when the first batch gave a
    snapshot (the file starts with the header) and when no batch gave one
    (there is no file).  When the first batch gave none and a later one did,
    the file starts with a data row: unless the texts of its cells include
    the six column names looked up, the function raises KeyError although
    every row has been written. *)
Theorem read_back_after_a_run :
  forall (df : list request) (out : file) (response : string)
         (batch_size : Z) (w w' : W) (rs : list (option dict)),
    0 < batch_size ->
    out = None \/ lower response = "y" ->
    fetch_all w df = (Returns rs, w') ->
    df <> [] ->
    let run := enrich_and_read_back csv_text df out response batch_size w in
    (successes (firstn (Z.to_nat batch_size) rs) <> [] -> fst run = Returns tt)
    /\ (successes rs = [] -> fst run = Returns tt /\ output_file (snd run) = None)
    /\ (forall d,
          successes (firstn (Z.to_nat batch_size) rs) = [] ->
          first_success rs = Some d ->
          forallb (fun c => existsb (String.eqb c)
                              (map csv_text (records_row snapshot_keys d)))
                  verification_columns = false ->
          fst run = Raises (Exc "KeyError")
          /\ data_rows (output_file (snd run))
             = map (records_row snapshot_keys) (successes rs)).
Proof.
  intros df out response batch_size w w' rs Hpos Hrun H Hne run.
  pose proof (enrich_completes df out response batch_size w w' rs Hpos Hrun H Hne)
    as Hret.
  destruct (enrich_output df out response batch_size w w' rs Hpos Hrun H)
    as (Hout & _).
  pose proof (enrich_data_rows df out response batch_size w w' rs Hpos Hrun H)
    as Hrows.
  assert (Hsplit : successes rs
                   = successes (firstn (Z.to_nat batch_size) rs)
                     ++ successes (skipn (Z.to_nat batch_size) rs))
    by (rewrite <- successes_app, firstn_skipn; reflexivity).
  subst run. unfold enrich_and_read_back.
  rewrite (not_cancelled out response Hrun).
  destruct (enrich_dataset_with_indicators df out response batch_size w)
    as [r st].
  simpl in Hret, Hout, Hrows. subst r. simpl.
  split; [| split].
  - intros Hfirst. rewrite Hout.
    destruct (successes (firstn (Z.to_nat batch_size) rs)) as [| d ds];
      [contradiction |].
    destruct (snapshot_rows (successes (skipn (Z.to_nat batch_size) rs)));
      reflexivity.
  - intros Hnone. rewrite Hnone in Hsplit. symmetry in Hsplit.
    apply app_eq_nil in Hsplit. destruct Hsplit as (H1 & H2).
    rewrite Hout, H1, H2. split; reflexivity.
  - intros d Hfirst Hd Htexts.
    split; [| exact Hrows].
    rewrite Hfirst in Hsplit. simpl in Hsplit.
    unfold first_success in Hd. rewrite Hsplit in Hd.
    rewrite Hout, Hfirst.
    destruct (successes (skipn (Z.to_nat batch_size) rs)) as [| d' ds];
      [discriminate Hd |].
    injection Hd as ->.
    simpl. unfold verification_columns in Htexts. simpl in Htexts.
    rewrite Htexts. reflexivity.
Qed.

(** X16.  [main] lets neither an exception derived from [Exception] nor a
    [KeyboardInterrupt] out, and does nothing when the input file is
    missing. *)
Theorem main_contains_failures :
  forall (input : option (list request)) (out : file) (response : string) (w : W),
    (forall e f w',
       main csv_text input out response w = (Raises e, f, w') ->
       e = SystemExit \/ e = GeneratorExit)
    /\ (input = None ->
        main csv_text input out response w = (Returns InputNotFound, out, w)).
Proof.
  intros input out response w. split.
  - intros e f w'. unfold main. destruct input as [df |]; [| discriminate].
    destruct (enrich_and_read_back csv_text df out response 25 w) as [[u | e0] st].
    + discriminate.
    + destruct e0; simpl; intros H; try discriminate H;
        injection H as <- _ _; tauto.
  - intros ->. reflexivity.
Qed.

(** X17.  When the destination exists and the operator answers anything but
    y or Y, [main] leaves the destination as it is, downloads nothing, and
    still ends with the message of a completed enrichment. *)
Theorem main_declined_overwrite :
  forall (df : list request) (old : list line) (response : string) (w : W),
    response <> "y" -> response <> "Y" ->
    main csv_text (Some df) (Some old) response w
    = (Returns Completed, Some old, w).
Proof.
  intros df old response w H1 H2.
  assert (Hn : String.eqb (lower response) "y" = false).
  { apply String.eqb_neq. intros Hy.
    apply (proj1 (lower_is_y response)) in Hy. tauto. }
  unfold main, enrich_and_read_back, enrich_dataset_with_indicators.
  rewrite Hn. reflexivity.
Qed.

(** X18.  On an existing but empty input table, a run the operator lets
    proceed ends with the error message for ZeroDivisionError, and the
    destination, if there was one, has been removed. *)
Theorem main_empty_table :
  forall (out : file) (response : string) (w : W),
    out = None \/ lower response = "y" ->
    main csv_text (Some []) out response w
    = (Returns (Failed (Exc "ZeroDivisionError")), None, w).
Proof.
  intros out response w Hrun.
  unfold main, enrich_and_read_back, enrich_dataset_with_indicators.
  rewrite (not_cancelled out response Hrun). reflexivity.
Qed.

(** X19.  When every row returns and the first 25 rows give at least one
    snapshot, [main] ends with the message of a completed enrichment and the
    destination is the header followed by the rows of all the snapshots, in
    input order. *)
Theorem main_completed :
  forall (df : list request) (out : file) (response : string) (w w' : W)
         (rs : list (option dict)),
    out = None \/ lower response = "y" ->
    fetch_all w df = (Returns rs, w') ->
    successes (firstn 25 rs) <> [] ->
    main csv_text (Some df) out response w
    = (Returns Completed,
       Some (Header snapshot_keys :: snapshot_rows (successes rs)), w').
Proof.
  intros df out response w w' rs Hrun H Hfirst.
  assert (Hne : df <> []).
  { intros ->. simpl in H. injection H as <- _. simpl in Hfirst.
    contradiction. }
  pose proof (enrich_completes df out response 25 w w' rs eq_refl Hrun H Hne)
    as Hret.
  pose proof (enrich_header_then_rows df out response 25 w w' rs eq_refl Hrun H
                Hfirst) as Hfile.
  destruct (enrich_output df out response 25 w w' rs eq_refl Hrun H) as (_ & Hw).
  unfold main, enrich_and_read_back.
  rewrite (not_cancelled out response Hrun).
  destruct (enrich_dataset_with_indicators df out response 25 w) as [r st].
  simpl in Hret, Hfile, Hw. subst r. rewrite Hfile, Hw. reflexivity.
Qed.

(** X20.  When an interrupt or an exception escapes while a row is
    processed, [main] ends with the interruption message, or with the error
    message for an exception derived from [Exception]; the destination holds
    the rows of the batches completed before. *)
Theorem main_after_escaping_exception :
  forall (df : list request) (out : file) (response : string)
         (w w1 w2 w3 : W) (done rest : list (list request))
         (before after : list request) (row : request)
         (rs rs_cur : list (option dict)) (e : pyexc),
    out = None \/ lower response = "y" ->
    batch_slices df 25 = Returns (done ++ (before ++ row :: after) :: rest) ->
    fetch_all w (concat done) = (Returns rs, w1) ->
    fetch_all w1 before = (Returns rs_cur, w2) ->
    fetch_row w2 row = (Raises e, w3) ->
    e = KeyboardInterrupt \/ is_Exception e = true ->
    exists f,
      main csv_text (Some df) out response w
      = (Returns (match e with
                  | KeyboardInterrupt => Interrupted
                  | _ => Failed e
                  end), f, w3)
      /\ data_rows f = map (records_row snapshot_keys) (successes rs).
Proof.
  intros df out response w w1 w2 w3 done rest before after row rs rs_cur e
         Hrun Hb Hdone Hcur Hrow He.
  destruct (run_with_escaping_exception df out response 25
              w w1 w2 w3 done rest before after row rs rs_cur e
              Hrun Hb Hdone Hcur Hrow)
    as (f' & Hrunf & Hrows).
  exists f'. split; [| exact Hrows].
  unfold main, enrich_and_read_back. rewrite Hrunf. simpl.
  destruct He as [-> | He]; [reflexivity |].
  destruct e; try discriminate He. reflexivity.
Qed.

End EntryFacts.

Section GuardedComputations.

Context {Val : Values} {Col : Collaborators}.

Ltac bind_inv_step H :=
  let a := fresh "x" in
  let Ha := fresh "Hx" in
  apply bind_Returns_inv in H; destruct H as (a & Ha & H).

Lemma try_except_nan (body : outcome pyobj) (v : pyobj) :
  try_except body (fun _ => Returns (PScalar nan)) = Returns v ->
  v = match body with
      | Returns r => r
      | Raises _ => PScalar nan
      end.
Proof.
  destruct body as [r | e]; simpl.
  - intros H. injection H as <-. reflexivity.
  - destruct (is_Exception e); intros H; [| discriminate H].
    injection H as <-. reflexivity.
Qed.

(** X21.  In a returned snapshot [ulcer_index] and [force_index] hold what
    their own statements computed, and [nan] when these raised: a failure
    there stays in its field. *)
Theorem hand_computed_fields_default_to_nan :
  forall (ticker : string) (date : Z) (bars : DataFrame) (snap : dict),
    compute_snapshot ticker date bars = Returns (Some snap) ->
    dict_get "ulcer_index" snap
      = Some (match ulcer_index_steps bars with
              | Returns v => v
              | Raises _ => PScalar nan
              end)
    /\ dict_get "force_index" snap
      = Some (match force_index_steps bars with
              | Returns v => v
              | Raises _ => PScalar nan
              end).
Proof.
  intros ticker date bars snap H. unfold compute_snapshot in H.
  do 18 bind_inv_step H.
  injection H as <-.
  repeat match goal with
         | Ht : try_except _ _ = Returns _ |- _ => apply try_except_nan in Ht
         end.
  subst. split; reflexivity.
Qed.

End GuardedComputations.

(** * The further properties on explicit inputs *)

Import Inputs.

Lemma series_result_is_last_valid_entry_witness :
  (fun _ : unit => Returns (PSeries [Num 1; Num 2; NaN])) tt
    = Returns (PSeries [Num 1; Num 2; NaN])
  /\ (((forall x, In x [Num 1; Num 2; NaN] -> isna x = true)
       /\ safe_ta_function (Val := cells)
            (fun _ => Returns (PSeries [Num 1; Num 2; NaN]))
          = Returns (PScalar nan))
      \/ (exists pre v post,
            [Num 1; Num 2; NaN] = pre ++ v :: post
            /\ isna v = false
            /\ (forall x, In x post -> isna x = true)
            /\ safe_ta_function (Val := cells)
                 (fun _ => Returns (PSeries [Num 1; Num 2; NaN]))
               = Returns (PScalar v))).
Proof.
  split; [reflexivity |].
  exact (series_result_is_last_valid_entry (Val := cells)
           (fun _ => Returns (PSeries [Num 1; Num 2; NaN]))
           [Num 1; Num 2; NaN] eq_refl).
Defined.

Lemma table_result_is_first_column_result_witness :
  df_empty two_columns = false
  /\ safe_ta_function (Val := cells) (fun _ => Returns (PDataFrame two_columns))
     = safe_ta_function (fun _ => Returns (PSeries (iloc_first_col two_columns))).
Proof.
  split; [reflexivity |].
  exact (table_result_is_first_column_result (Val := cells)
           (fun _ => Returns (PDataFrame two_columns)) two_columns
           eq_refl eq_refl).
Defined.

Lemma safe_ta_function_idempotent_witness :
  safe_ta_function (Val := cells) (fun _ => Returns (PDataFrame two_columns))
    = Returns (PScalar (Num 2))
  /\ PScalar (Num 2) <> PNone.
Proof.
  assert (H : safe_ta_function (Val := cells)
                (fun _ => Returns (PDataFrame two_columns))
              = Returns (PScalar (Num 2))) by reflexivity.
  split; [exact H |].
  exact (proj1 (proj2 (safe_ta_function_idempotent (Val := cells)
                         (fun _ => Returns (PDataFrame two_columns)))
                      (PScalar (Num 2)) H)).
Defined.

Lemma retrieval_failures_give_None_witness :
  yf_download (Collaborators := healthy) 0%nat "NONE" (100 - 90) (100 + 1)
    = (Returns (mkDataFrame ohlcv []), 1%nat)
  /\ df_empty (mkDataFrame ohlcv []) = true
  /\ get_indicators_for_date (Col := healthy) 0%nat "NONE" 100 90
     = (Returns None, 1%nat).
Proof.
  split; [reflexivity |]. split; [reflexivity |].
  exact (proj2 (retrieval_failures_give_None (Col := healthy)
                  0%nat 1%nat "NONE" 100 90)
               (mkDataFrame ohlcv []) eq_refl (or_introl eq_refl)).
Defined.

Lemma snapshot_requires_valid_download_witness :
  get_indicators_for_date (Col := healthy) 0%nat "FULL" 100 90
    = (Returns (Some demo_snapshot), 1%nat)
  /\ exists stock,
       yf_download (Collaborators := healthy) 0%nat "FULL" (100 - 90) (100 + 1)
         = (Returns stock, 1%nat)
       /\ (forall c, In c required_cols -> In c (get_level_values0 (df_columns stock)))
       /\ (20 <= length (filter (fun r => (fst r <=? 100)%Z) (df_rows stock)))%nat.
Proof.
  assert (H : get_indicators_for_date (Col := healthy) 0%nat "FULL" 100 90
              = (Returns (Some demo_snapshot), 1%nat))
    by (vm_compute; reflexivity).
  split; [exact H |].
  exact (snapshot_requires_valid_download (Col := healthy)
           0%nat 1%nat "FULL" 100 90 demo_snapshot H).
Defined.

Lemma builder_raises_Exception_only_before_try_witness :
  get_indicators_for_date_at (Col := healthy) bounded_shift 0%nat "FULL" 106751 90
    = (Raises (Exc "OutOfBoundsDatetime"), 0%nat)
  /\ is_Exception (Exc "OutOfBoundsDatetime") = true
  /\ window_bounds bounded_shift 106751 90 = Raises (Exc "OutOfBoundsDatetime").
Proof.
  assert (H : get_indicators_for_date_at (Col := healthy) bounded_shift
                0%nat "FULL" 106751 90
              = (Raises (Exc "OutOfBoundsDatetime"), 0%nat)) by reflexivity.
  split; [exact H |]. split; [reflexivity |].
  exact (proj1 (proj1 (builder_raises_Exception_only_before_try (Col := healthy)
                         bounded_shift 0%nat 0%nat "FULL" 106751 90
                         (Exc "OutOfBoundsDatetime") H) eq_refl)).
Defined.

Lemma snapshot_identifies_its_row_witness :
  fetch_row (Col := healthy) 0%nat (mkRequest "FULL" (TimeObj 100))
    = (Returns (Some demo_snapshot), 1%nat)
  /\ exists date rest,
       row_date (Col := healthy) (mkRequest "FULL" (TimeObj 100)) = Returns date
       /\ dict_keys demo_snapshot = snapshot_keys
       /\ dict_get "ticker" demo_snapshot = Some (PStr "FULL")
       /\ dict_get "date" demo_snapshot = Some (PTimestamp date)
       /\ records_row snapshot_keys demo_snapshot
          = PStr "FULL" :: PTimestamp date :: rest
       /\ length rest = 18%nat.
Proof.
  assert (H : fetch_row (Col := healthy) 0%nat (mkRequest "FULL" (TimeObj 100))
              = (Returns (Some demo_snapshot), 1%nat))
    by (vm_compute; reflexivity).
  split; [exact H |].
  exact (snapshot_identifies_its_row (Col := healthy)
           0%nat 1%nat (mkRequest "FULL" (TimeObj 100)) demo_snapshot H).
Defined.

Lemma degenerate_runs_raise_witness :
  (Some [Row []] = None \/ lower "Y" = "y")
  /\ enrich_dataset_with_indicators (Col := healthy) demo_df (Some [Row []]) "Y" 0 0%nat
     = (Raises (Exc "ValueError"), mkState (Col := healthy) 0 0 0 0 None 0%nat).
Proof.
  assert (H : Some [Row []] = None \/ lower "Y" = "y") by (right; reflexivity).
  split; [exact H |].
  exact (proj1 (degenerate_runs_raise (Col := healthy)
                  demo_df (Some [Row []]) "Y" 0 0%nat H) eq_refl).
Defined.

Lemma overwrite_prompt_witness :
  "no" <> "y" /\ "no" <> "Y"
  /\ enrich_dataset_with_indicators (Col := healthy) demo_df (Some [Row []]) "no" 2 0%nat
     = (Returns tt, mkState (Col := healthy) 0 0 0 0 (Some [Row []]) 0%nat).
Proof.
  assert (H1 : "no" <> "y") by discriminate.
  assert (H2 : "no" <> "Y") by discriminate.
  split; [exact H1 |]. split; [exact H2 |].
  exact (proj2 (overwrite_prompt (Col := healthy)
                  demo_df [Row []] "no" 2 0%nat) H1 H2).
Defined.

Lemma batch_slices_bounds_witness :
  0 < 2
  /\ exists batches,
       batch_slices demo_df 2 = Returns batches
       /\ Z.of_nat (length batches) = ceil_div (Z.of_nat (length demo_df)) 2
       /\ Forall (fun b => (1 <= length b <= Z.to_nat 2)%nat) batches
       /\ (forall i, (S i < length batches)%nat ->
             length (nth i batches []) = Z.to_nat 2).
Proof.
  split; [reflexivity |].
  exact (batch_slices_bounds demo_df 2 eq_refl).
Defined.

Lemma escaping_exception_loses_current_batch_witness :
  batch_slices stopped_df 2
    = Returns (stopped_done
               ++ ([mkRequest "FULL" (TimeObj 100)]
                   ++ mkRequest "STOP" (TimeObj 100) :: [])
               :: [[mkRequest "FULL" (TimeObj 100)]])
  /\ fetch_all (Col := healthy) 0%nat (concat stopped_done)
     = (Returns stopped_done_rs, 2%nat)
  /\ fetch_all (Col := healthy) 2%nat [mkRequest "FULL" (TimeObj 100)]
     = (Returns stopped_cur_rs, 3%nat)
  /\ fetch_row (Col := healthy) 3%nat (mkRequest "STOP" (TimeObj 100))
     = (Raises KeyboardInterrupt, 4%nat)
  /\ exists st,
       enrich_dataset_with_indicators (Col := healthy) stopped_df None "" 2 0%nat
       = (Raises KeyboardInterrupt, st)
       /\ data_rows (output_file st)
          = map (records_row snapshot_keys) (successes stopped_done_rs)
       /\ successful_fetches st
          = (length (successes stopped_done_rs)
             + length (successes stopped_cur_rs))%nat
       /\ processed_records st
          = S (length stopped_done_rs + length stopped_cur_rs)
       /\ batch_count st = S (length stopped_done)
       /\ world st = 4%nat.
Proof.
  assert (Hb : batch_slices stopped_df 2
               = Returns (stopped_done
                          ++ ([mkRequest "FULL" (TimeObj 100)]
                              ++ mkRequest "STOP" (TimeObj 100) :: [])
                          :: [[mkRequest "FULL" (TimeObj 100)]]))
    by (vm_compute; reflexivity).
  assert (Hd : fetch_all (Col := healthy) 0%nat (concat stopped_done)
               = (Returns stopped_done_rs, 2%nat)) by (vm_compute; reflexivity).
  assert (Hc : fetch_all (Col := healthy) 2%nat [mkRequest "FULL" (TimeObj 100)]
               = (Returns stopped_cur_rs, 3%nat)) by (vm_compute; reflexivity).
  assert (Hr : fetch_row (Col := healthy) 3%nat (mkRequest "STOP" (TimeObj 100))
               = (Raises KeyboardInterrupt, 4%nat)) by reflexivity.
  split; [exact Hb |]. split; [exact Hd |]. split; [exact Hc |].
  split; [exact Hr |].
  exact (escaping_exception_loses_current_batch (Col := healthy)
           stopped_df None "" 2 0%nat 2%nat 3%nat 4%nat
           stopped_done [[mkRequest "FULL" (TimeObj 100)]]
           [mkRequest "FULL" (TimeObj 100)] []
           (mkRequest "STOP" (TimeObj 100))
           stopped_done_rs stopped_cur_rs KeyboardInterrupt
           (or_introl eq_refl) Hb Hd Hc Hr).
Defined.

Lemma read_back_after_a_run_witness :
  0 < 1
  /\ fetch_all (Col := healthy) 0%nat late_df = (Returns late_rs, 2%nat)
  /\ late_df <> []
  /\ successes (firstn (Z.to_nat 1) late_rs) = []
  /\ first_success late_rs = Some demo_snapshot
  /\ forallb (fun c => existsb (String.eqb c)
                         (map cell_text (records_row snapshot_keys demo_snapshot)))
             verification_columns = false
  /\ fst (enrich_and_read_back (Col := healthy) cell_text late_df None "" 1 0%nat)
     = Raises (Exc "KeyError").
Proof.
  assert (H : fetch_all (Col := healthy) 0%nat late_df = (Returns late_rs, 2%nat))
    by (vm_compute; reflexivity).
  assert (Hne : late_df <> []) by discriminate.
  split; [reflexivity |]. split; [exact H |]. split; [exact Hne |].
  split; [reflexivity |]. split; [reflexivity |]. split; [reflexivity |].
  exact (proj1 (proj2 (proj2 (read_back_after_a_run (Col := healthy) cell_text
                                late_df None "" 1 0%nat 2%nat late_rs
                                eq_refl (or_introl eq_refl) H Hne))
                      demo_snapshot eq_refl eq_refl eq_refl)).
Defined.

Lemma main_contains_failures_witness :
  main (Col := healthy) cell_text None (Some [Row []]) "y" 0%nat
  = (Returns InputNotFound, Some [Row []], 0%nat).
Proof.
  exact (proj2 (main_contains_failures (Col := healthy) cell_text
                  None (Some [Row []]) "y" 0%nat) eq_refl).
Defined.

Lemma main_declined_overwrite_witness :
  "no" <> "y" /\ "no" <> "Y"
  /\ main (Col := healthy) cell_text (Some demo_df) (Some [Row []]) "no" 0%nat
     = (Returns Completed, Some [Row []], 0%nat).
Proof.
  assert (H1 : "no" <> "y") by discriminate.
  assert (H2 : "no" <> "Y") by discriminate.
  split; [exact H1 |]. split; [exact H2 |].
  exact (main_declined_overwrite (Col := healthy) cell_text
           demo_df [Row []] "no" 0%nat H1 H2).
Defined.

Lemma main_empty_table_witness :
  (Some [Row []] = None \/ lower "y" = "y")
  /\ main (Col := healthy) cell_text (Some []) (Some [Row []]) "y" 0%nat
     = (Returns (Failed (Exc "ZeroDivisionError")), None, 0%nat).
Proof.
  assert (H : Some [Row []] = None \/ lower "y" = "y") by (right; reflexivity).
  split; [exact H |].
  exact (main_empty_table (Col := healthy) cell_text (Some [Row []]) "y" 0%nat H).
Defined.

Lemma main_completed_witness :
  fetch_all (Col := healthy) 0%nat demo_df = (Returns demo_rs, 3%nat)
  /\ successes (firstn 25 demo_rs) <> []
  /\ main (Col := healthy) cell_text (Some demo_df) None "" 0%nat
     = (Returns Completed,
        Some (Header snapshot_keys :: snapshot_rows (successes demo_rs)), 3%nat).
Proof.
  assert (H : fetch_all (Col := healthy) 0%nat demo_df = (Returns demo_rs, 3%nat))
    by (vm_compute; reflexivity).
  assert (Hf : successes (firstn 25 demo_rs) <> []) by discriminate.
  split; [exact H |]. split; [exact Hf |].
  exact (main_completed (Col := healthy) cell_text
           demo_df None "" 0%nat 3%nat demo_rs (or_introl eq_refl) H Hf).
Defined.

Lemma main_after_escaping_exception_witness :
  batch_slices short_stopped_df 25
    = Returns ([] ++ ([mkRequest "FULL" (TimeObj 100)]
                      ++ mkRequest "STOP" (TimeObj 100) :: []) :: [])
  /\ fetch_all (Col := healthy) 0%nat [mkRequest "FULL" (TimeObj 100)]
     = (Returns stopped_cur_rs, 1%nat)
  /\ fetch_row (Col := healthy) 1%nat (mkRequest "STOP" (TimeObj 100))
     = (Raises KeyboardInterrupt, 2%nat)
  /\ exists f,
       main (Col := healthy) cell_text (Some short_stopped_df) None "" 0%nat
       = (Returns Interrupted, f, 2%nat)
       /\ data_rows f = [].
Proof.
  assert (Hb : batch_slices short_stopped_df 25
               = Returns ([] ++ ([mkRequest "FULL" (TimeObj 100)]
                                 ++ mkRequest "STOP" (TimeObj 100) :: []) :: []))
    by (vm_compute; reflexivity).
  assert (Hc : fetch_all (Col := healthy) 0%nat [mkRequest "FULL" (TimeObj 100)]
               = (Returns stopped_cur_rs, 1%nat)) by (vm_compute; reflexivity).
  assert (Hr : fetch_row (Col := healthy) 1%nat (mkRequest "STOP" (TimeObj 100))
               = (Raises KeyboardInterrupt, 2%nat)) by reflexivity.
  split; [exact Hb |]. split; [exact Hc |]. split; [exact Hr |].
  exact (main_after_escaping_exception (Col := healthy) cell_text
           short_stopped_df None "" 0%nat 0%nat 1%nat 2%nat
           [] [] [mkRequest "FULL" (TimeObj 100)] []
           (mkRequest "STOP" (TimeObj 100)) [] stopped_cur_rs KeyboardInterrupt
           (or_introl eq_refl) Hb eq_refl Hc Hr (or_introl eq_refl)).
Defined.

Lemma hand_computed_fields_default_to_nan_witness :
  compute_snapshot (Col := collaborators false true) "FULL" 100 full_stock
    = Returns (Some ulcer_failed_snapshot)
  /\ dict_get "ulcer_index" ulcer_failed_snapshot = Some (PScalar NaN).
Proof.
  assert (H : compute_snapshot (Col := collaborators false true) "FULL" 100 full_stock
              = Returns (Some ulcer_failed_snapshot))
    by (vm_compute; reflexivity).
  split; [exact H |].
  exact (proj1 (hand_computed_fields_default_to_nan
                  (Col := collaborators false true)
                  "FULL" 100 full_stock ulcer_failed_snapshot H)).
Defined.
